(** * Underwater-AI backend: job routers, authentication and frame streaming

    A shallow embedding of the FastAPI routers of the repository
    ([auth_router.py], [detect_router.py], [enhance_router.py],
    [stream_router.py]) and the properties of their specification.

    Conventions of the model.
    - Python values that travel through the routers (documents of the
      store, JSON messages, token payloads) are terms of [value]; a dict is
      an association list read by its first binding, as [dict.get] reads a
      dict whose keys are unique.
    - A handler is a function from the state (the three collections of the
      document store, the state of the outside world, the trace of dispatch
      calls) to an outcome and a new state; an outcome is a returned value
      or a raised exception.
    - Everything the routers import from outside the repository sources
      (uuid, the clock, the ObjectId generator of the driver, passlib, jose,
      hashlib, json, the settings, the enqueue and frame services) is a
      field of the class [Env].  The store itself is connected and does not
      fail; a filter [{field: v}] matches a document whose field equals [v].
    - Time is counted in seconds. *)

From Stdlib Require Import String Ascii List ZArith Bool Lia DecimalString.
Import ListNotations.
Set Warnings "-register-all".
Open Scope string_scope.
Open Scope list_scope.
Open Scope Z_scope.

(** ** Python values *)

Inductive value : Type :=
| VNone
| VBool (b : bool)
| VInt (n : Z)
| VFloat (bits : Z)          (* the IEEE-754 binary64 pattern *)
| VStr (s : string)
| VOid (hex : string)        (* bson.ObjectId, by its 24 hex digits *)
| VDatetime (t : Z)          (* seconds since the epoch, UTC *)
| VList (l : list value)
| VDict (d : list (string * value)).

Definition dict := list (string * value).

(** [d.get(k)] as an option, [None] when the key is absent. *)
Fixpoint lookup (d : dict) (k : string) : option value :=
  match d with
  | [] => None
  | (k', v) :: d' => if String.eqb k' k then Some v else lookup d' k
  end.

(** [d.get(k, default)] *)
Definition get_default (d : dict) (k : string) (default : value) : value :=
  match lookup d k with Some v => v | None => default end.

(** [d.get(k)] *)
Definition get (d : dict) (k : string) : value := get_default d k VNone.

(** [d[k] = v] *)
Fixpoint setitem (d : dict) (k : string) (v : value) : dict :=
  match d with
  | [] => [(k, v)]
  | (k', v') :: d' =>
      if String.eqb k' k then (k, v) :: d' else (k', v') :: setitem d' k v
  end.

(** [d.update(e)] *)
Definition update (d e : dict) : dict :=
  fold_left (fun acc kv => setitem acc (fst kv) (snd kv)) e d.

(** Truth value of a Python object ([if x], [not x]). *)
Definition truthy (v : value) : bool :=
  match v with
  | VNone => false
  | VBool b => b
  | VInt n => negb (n =? 0)
  | VFloat bits => negb ((bits =? 0) || (bits =? 2 ^ 63))
  | VStr s => negb (String.eqb s "")
  | VOid _ => true
  | VDatetime _ => true
  | VList l => match l with [] => false | _ => true end
  | VDict d => match d with [] => false | _ => true end
  end.

(** Structural equality of values: [==] between a value and a string, None
    or an ObjectId, and the equality match of a store filter. *)
Fixpoint value_eqb (a b : value) : bool :=
  match a, b with
  | VNone, VNone => true
  | VBool x, VBool y => Bool.eqb x y
  | VInt x, VInt y => x =? y
  | VFloat x, VFloat y => x =? y
  | VStr x, VStr y => String.eqb x y
  | VOid x, VOid y => String.eqb x y
  | VDatetime x, VDatetime y => x =? y
  | VList x, VList y =>
      (fix all2 (x y : list value) : bool :=
         match x, y with
         | [], [] => true
         | u :: x', v :: y' => value_eqb u v && all2 x' y'
         | _, _ => false
         end) x y
  | VDict x, VDict y =>
      (fix all2 (x y : list (string * value)) : bool :=
         match x, y with
         | [], [] => true
         | (j, u) :: x', (k, v) :: y' =>
             String.eqb j k && value_eqb u v && all2 x' y'
         | _, _ => false
         end) x y
  | _, _ => false
  end.

Definition is_none (v : value) : bool :=
  match v with VNone => true | _ => false end.

(** ** Outcomes and handlers *)

Inductive exn : Type :=
| HTTPException (status_code : Z) (detail : string)
| Exception (msg : string).     (* any other exception, answered 500 *)

Inductive outcome (A : Type) : Type :=
| Return (a : A)
| Raise (e : exn).
Arguments Return {A} a.
Arguments Raise {A} e.

Definition M (S A : Type) : Type := S -> outcome A * S.

Definition ret {S A} (a : A) : M S A := fun s => (Return a, s).
Definition raise {S A} (e : exn) : M S A := fun s => (Raise e, s).
Definition bind {S A B} (m : M S A) (k : A -> M S B) : M S B :=
  fun s => match m s with
           | (Return a, s') => k a s'
           | (Raise e, s') => (Raise e, s')
           end.
Definition gets {S A} (f : S -> A) : M S A := fun s => (Return (f s), s).
Definition modify {S} (f : S -> S) : M S unit := fun s => (Return tt, f s).

Declare Scope handler_scope.
Delimit Scope handler_scope with handler.
Notation "x <- m ;; k" := (bind m (fun x => k))
  (at level 61, m at next level, right associativity) : handler_scope.
Notation "m ;;; k" := (bind m (fun _ => k))
  (at level 61, right associativity) : handler_scope.

(** [d[k]], raising KeyError when the key is absent. *)
Definition getitem {S} (d : dict) (k : string) : M S value :=
  match lookup d k with
  | Some v => ret v
  | None => raise (Exception "KeyError")
  end.

(** ** The document store *)

Record database : Type := {
  users : list dict;
  files : list dict;
  results : list dict
}.

(** [collection.find_one({field: v})]: the first document, in the order of
    the collection, whose field equals [v]. *)
Fixpoint find_one (coll : list dict) (field : string) (v : value)
  : option dict :=
  match coll with
  | [] => None
  | doc :: rest =>
      match lookup doc field with
      | Some x => if value_eqb x v then Some doc else find_one rest field v
      | None => find_one rest field v
      end
  end.

(** [not doc] for what [find_one] answers. *)
Definition falsy (doc : option dict) : bool :=
  match doc with
  | None => true
  | Some d => negb (truthy (VDict d))
  end.

(** One recorded call of an enqueue service: its three arguments and the
    exception it raised, if any. *)
Record dispatch : Type := {
  d_job_id : string;
  d_file_id : string;
  d_method : string;
  d_raised : option exn
}.


(** ** The environment of the routers *)

Class Env : Type := {
  (** state of everything outside the process *)
  W : Type;
  (** [str(x)] of a float, a datetime, a list or a dict; no router depends
      on how these are printed *)
  repr : value -> string;
  (** the driver's generator of ObjectIds, and [str(uuid.uuid4())] *)
  new_oid : W -> string * W;
  uuid4 : W -> string * W;
  (** [datetime.utcnow()], in seconds: the clock is read from the world *)
  utcnow : W -> Z;
  (** [enqueue_detection] and [enqueue_enhancement] of the services
      package: they answer or raise, and may change the world *)
  enqueue_detection : string -> string -> string -> W -> option exn * W;
  enqueue_enhancement : string -> string -> string -> W -> option exn * W;
  (** passlib's [pwd_context.hash] (salted) and [pwd_context.verify];
      [None] is a raised exception *)
  pwd_context_hash : string -> W -> option string * W;
  pwd_context_verify : string -> value -> option bool;
  (** [hashlib.sha256(p.encode('utf-8')).hexdigest()] *)
  sha256_hexdigest : string -> string;
  (** jose's [jwt.encode(claims, key, algorithm)] and
      [jwt.decode(token, key, algorithms)] at a reading of the clock;
      [None] is a raised JWTError *)
  jwt_encode : dict -> string -> string -> string;
  jwt_decode : string -> string -> list string -> Z -> option dict;
  (** backend.utils.config.settings *)
  JWT_SECRET_KEY : string;
  JWT_ALGORITHM : string;
  JWT_EXPIRATION_HOURS : Z;
  ACCESS_TOKEN_EXPIRE_MINUTES : Z;
  (** [json.loads]; [None] is a raised JSONDecodeError *)
  json_loads : string -> option value;
  (** [process_frame_stream] of the streaming service: a dict, or the
      message of the exception it raised *)
  process_frame_stream : value -> W -> (string + dict) * W
}.

Section Routers.

Context {E : Env}.

(** [str(x)] *)
Definition py_str (v : value) : string :=
  match v with
  | VNone => "None"
  | VBool true => "True"
  | VBool false => "False"
  | VInt n => NilZero.string_of_int (Z.to_int n)
  | VStr s => s
  | VOid hex => hex
  | other => repr other
  end.

Record state : Type := {
  db : database;
  world : W;
  enqueued : list dispatch
}.

Definition set_db (f : database -> database) (s : state) : state :=
  {| db := f (db s); world := world s; enqueued := enqueued s |}.

(** Run an operation of the outside world. *)
Definition ask {A} (f : W -> A * W) : M state A :=
  fun s => let '(a, w) := f (world s) in
           (Return a, {| db := db s; world := w; enqueued := enqueued s |}).

(** [try: m except Exception as e: handler e] *)
Definition try_except {A} (m : M state A) (handler : exn -> M state A)
  : M state A :=
  fun s => match m s with
           | (Return a, s') => (Return a, s')
           | (Raise e, s') => handler e s'
           end.

Definition put_users (l : list dict) (d : database) : database :=
  {| users := l; files := files d; results := results d |}.
Definition put_results (l : list dict) (d : database) : database :=
  {| users := users d; files := files d; results := l |}.

(** [collection.insert_one(doc)]: the driver gives the document an [_id],
    the store appends it; the answer is [inserted_id]. *)
Definition insert_one (put : list dict -> database -> database)
    (coll : database -> list dict) (doc : dict) : M state value :=
  (oid <- ask new_oid ;;
   modify (set_db (fun d => put (coll d ++ [("_id", VOid oid) :: doc]) d)) ;;;
   ret (VOid oid))%handler.

(** *** detect_router.py and enhance_router.py *)

(** Modelled from the spec: the request and response schemas of
    backend.schemas.result_schema are not in the sources; section 6 gives
    their wire shapes, [{file_id, model|method}],
    [{job_id, status, message}] and
    [{job_id, status, result|null, error|null}]. *)
Record DetectionRequest : Type := {
  dr_file_id : string;
  dr_model : string
}.
Record EnhancementRequest : Type := {
  er_file_id : string;
  er_method : string
}.
Record JobResponse : Type := {
  r_job_id : string;
  r_status : string;
  r_message : string
}.
Record JobStatusResponse : Type := {
  js_job_id : value;
  js_status : value;
  js_result : value;
  js_error : value
}.

(** [await enqueue(job_id, file_id, method)], with its trace. *)
Definition call_enqueue
    (enqueue : string -> string -> string -> W -> option exn * W)
    (job_id file_id method : string) : M state unit :=
  fun s =>
    let '(r, w) := enqueue job_id file_id method (world s) in
    let s' := {| db := db s; world := w;
                 enqueued := enqueued s ++
                   [{| d_job_id := job_id; d_file_id := file_id;
                       d_method := method; d_raised := r |}] |} in
    match r with
    | None => (Return tt, s')
    | Some e => (Raise e, s')
    end.

Definition detect_threats (request : DetectionRequest)
    (current_user : dict) : M state JobResponse :=
  (file_doc <- gets (fun s => find_one (files (db s)) "file_id"
                                (VStr (dr_file_id request))) ;;
   if falsy file_doc then raise (HTTPException 404 "File not found") else
   job_id <- ask uuid4 ;;
   uid <- getitem current_user "_id" ;;
   created_at <- gets (fun s => utcnow (world s)) ;;
   updated_at <- gets (fun s => utcnow (world s)) ;;
   let result_doc :=
     [("job_id", VStr job_id);
      ("file_id", VStr (dr_file_id request));
      ("user_id", VStr (py_str uid));
      ("job_type", VStr "detection");
      ("status", VStr "pending");
      ("model_used", VStr (dr_model request));
      ("created_at", VDatetime created_at);
      ("updated_at", VDatetime updated_at)] in
   insert_one put_results results result_doc ;;;
   call_enqueue enqueue_detection job_id (dr_file_id request)
                (dr_model request) ;;;
   ret {| r_job_id := job_id; r_status := "pending";
          r_message := "Detection job queued" |})%handler.

Definition enhance_image (request : EnhancementRequest)
    (current_user : dict) : M state JobResponse :=
  (file_doc <- gets (fun s => find_one (files (db s)) "file_id"
                                (VStr (er_file_id request))) ;;
   if falsy file_doc then raise (HTTPException 404 "File not found") else
   job_id <- ask uuid4 ;;
   uid <- getitem current_user "_id" ;;
   created_at <- gets (fun s => utcnow (world s)) ;;
   updated_at <- gets (fun s => utcnow (world s)) ;;
   let result_doc :=
     [("job_id", VStr job_id);
      ("file_id", VStr (er_file_id request));
      ("user_id", VStr (py_str uid));
      ("job_type", VStr "enhancement");
      ("status", VStr "pending");
      ("model_used", VStr (er_method request));
      ("created_at", VDatetime created_at);
      ("updated_at", VDatetime updated_at)] in
   insert_one put_results results result_doc ;;;
   call_enqueue enqueue_enhancement job_id (er_file_id request)
                (er_method request) ;;;
   ret {| r_job_id := job_id; r_status := "pending";
          r_message := "Enhancement job queued" |})%handler.

(** The JobStatusResponse built from the keys of [response_data]. *)
Definition job_status_response (response_data : dict) : JobStatusResponse :=
  {| js_job_id := get response_data "job_id";
     js_status := get response_data "status";
     js_result := get response_data "result";
     js_error := get response_data "error" |}.

Definition get_detection_status (job_id : string) (current_user : dict)
  : M state JobStatusResponse :=
  (result <- gets (fun s => find_one (results (db s)) "job_id"
                              (VStr job_id)) ;;
   if falsy result then raise (HTTPException 404 "Job not found") else
   let result := match result with Some d => d | None => [] end in
   uid <- getitem current_user "_id" ;;
   if negb (String.eqb (py_str (get result "user_id")) (py_str uid))
   then raise (HTTPException 403 "Access denied") else
   let response_data :=
     [("job_id", VStr job_id);
      ("status", get_default result "status" (VStr "unknown"));
      ("result", VNone);
      ("error", get result "error_message")] in
   let response_data :=
     if value_eqb (get result "status") (VStr "completed")
     then
       let detections := get_default result "detections" (VList []) in
       setitem response_data "result"
         (VDict [("detections", detections);
                 ("annotated_file_path", get result "annotated_file_path")])
     else response_data in
   ret (job_status_response response_data))%handler.

Definition get_enhancement_status (job_id : string) (current_user : dict)
  : M state JobStatusResponse :=
  (result <- gets (fun s => find_one (results (db s)) "job_id"
                              (VStr job_id)) ;;
   if falsy result then raise (HTTPException 404 "Job not found") else
   let result := match result with Some d => d | None => [] end in
   uid <- getitem current_user "_id" ;;
   if negb (String.eqb (py_str (get result "user_id")) (py_str uid))
   then raise (HTTPException 403 "Access denied") else
   let response_data :=
     [("job_id", VStr job_id);
      ("status", get_default result "status" (VStr "unknown"));
      ("result", VNone);
      ("error", get result "error_message")] in
   let response_data :=
     if value_eqb (get result "status") (VStr "completed")
     then
       setitem response_data "result"
         (VDict [("enhanced_file_path", get result "enhanced_file_path");
                 ("metrics", get result "metrics")])
     else response_data in
   ret (job_status_response response_data))%handler.

(** *** auth_router.py *)

Definition verify_password (plain_password : string)
    (hashed_password : value) : bool :=
  match pwd_context_verify plain_password hashed_password with
  | Some verified => verified
  | None =>
      let expected_hash := sha256_hexdigest plain_password in
      value_eqb hashed_password (VStr expected_hash)
  end.

Definition get_password_hash (password : string) : M state string :=
  (hashed <- ask (pwd_context_hash password) ;;
   match hashed with
   | Some h => ret h
   | None => ret (sha256_hexdigest password)
   end)%handler.

(** [expires_delta] is a number of seconds; [timedelta(0)] is false. *)
Definition create_access_token (data : dict) (expires_delta : option Z)
  : M state string :=
  (let to_encode := data in
   now <- gets (fun s => utcnow (world s)) ;;
   let expire :=
     match expires_delta with
     | Some delta =>
         if negb (delta =? 0) then now + delta
         else now + 3600 * JWT_EXPIRATION_HOURS
     | None => now + 3600 * JWT_EXPIRATION_HOURS
     end in
   let to_encode := update to_encode [("exp", VDatetime expire)] in
   ret (jwt_encode to_encode JWT_SECRET_KEY JWT_ALGORITHM))%handler.

Definition credentials_exception : exn :=
  HTTPException 401 "Could not validate credentials".

Definition get_current_user (token : string) : M state dict :=
  (now <- gets (fun s => utcnow (world s)) ;;
   username <-
     match jwt_decode token JWT_SECRET_KEY [JWT_ALGORITHM] now with
     | Some payload =>
         let username := get payload "sub" in
         if is_none username then raise credentials_exception
         else ret username
     | None => raise credentials_exception
     end ;;
   user <- gets (fun s => find_one (users (db s)) "username" username) ;;
   match user with
   | None => raise credentials_exception
   | Some user => ret user
   end)%handler.

Record OAuth2PasswordRequestForm : Type := {
  username : string;
  password : string
}.

Record Token : Type := {
  access_token : string;
  token_type : string
}.

(** [user[k]] where [user] is what [find_one] answered. *)
Definition subscript (user : option dict) (k : string) : M state value :=
  match user with
  | Some d => getitem d k
  | None => raise (Exception "TypeError")
  end.

Definition login (form_data : OAuth2PasswordRequestForm) : M state Token :=
  (user <- gets (fun s => find_one (users (db s)) "username"
                            (VStr (username form_data))) ;;
   user <-
     (if falsy user then
        if String.eqb (username form_data) "admin"
           && String.eqb (password form_data) "admin123"
        then
          try_except
            (hashed <- get_password_hash "admin123" ;;
             created_at <- gets (fun s => utcnow (world s)) ;;
             updated_at <- gets (fun s => utcnow (world s)) ;;
             let user_doc :=
               [("username", VStr "admin");
                ("email", VStr "admin@example.com");
                ("hashed_password", VStr hashed);
                ("is_active", VBool true);
                ("created_at", VDatetime created_at);
                ("updated_at", VDatetime updated_at)] in
             inserted_id <- insert_one put_users users user_doc ;;
             gets (fun s => find_one (users (db s)) "_id" inserted_id))
            (fun _ => raise (HTTPException 500 "Failed to create user"))
        else raise (HTTPException 401 "Incorrect username or password")
      else ret user) ;;
   hashed_password <- subscript user "hashed_password" ;;
   if negb (verify_password (password form_data) hashed_password)
   then raise (HTTPException 401 "Incorrect username or password") else
   let access_token_expires := 60 * ACCESS_TOKEN_EXPIRE_MINUTES in
   sub <- subscript user "username" ;;
   access_token <- create_access_token [("sub", sub)]
                     (Some access_token_expires) ;;
   ret {| access_token := access_token; token_type := "bearer" |})%handler.

(** *** stream_router.py *)

Inductive event : Type :=
| Text (data : string)       (* [receive_text] answers *)
| Disconnect.                (* [receive_text] raises WebSocketDisconnect *)

Inductive connection : Type :=
| Open                       (* the loop awaits the next message *)
| Disconnected               (* the client left *)
| Closed.                    (* the handler called [websocket.close()] *)

(** One turn of the [while True] loop on a received text: the messages
    sent, and whether the loop goes on.  [send_json] on the open socket
    succeeds; [process_frame_stream] answers a dict or raises. *)
Definition on_text (data : string) (w : W)
  : list value * connection * W :=
  match json_loads data with
  | None => ([], Closed, w)
  | Some (VDict message) =>
      let frame_base64 := get message "frame" in
      let frame_id := get_default message "frame_id" (VStr "unknown") in
      if negb (truthy frame_base64) then
        ([VDict [("error", VStr "No frame data provided");
                 ("frame_id", frame_id)]], Open, w)
      else
        match process_frame_stream frame_base64 w with
        | (inr result, w') =>
            ([VDict [("frame_id", frame_id);
                     ("enhanced_frame", get result "enhanced_frame");
                     ("detections",
                      get_default result "detections" (VList []));
                     ("metrics", get result "metrics")]], Open, w')
        | (inl e, w') =>
            ([VDict [("error", VStr e); ("frame_id", frame_id)]], Open, w')
        end
  | Some _ => ([], Closed, w)    (* AttributeError on [message.get] *)
  end.

(** The endpoint run on the events its socket delivers. *)
Fixpoint websocket_stream (inbound : list event) (w : W)
  : list value * connection * W :=
  match inbound with
  | [] => ([], Open, w)
  | Disconnect :: _ => ([], Disconnected, w)
  | Text data :: rest =>
      match on_text data w with
      | (sent, Open, w') =>
          let '(sent', c, w'') := websocket_stream rest w' in
          (sent ++ sent', c, w'')
      | (sent, c, w') => (sent, c, w')
      end
  end.

(** *** What the libraries promise *)

(** passlib: a digest made by the context verifies against its password,
    and a SHA-256 hex digest is not a hash the context can identify. *)
Record PasslibContract : Prop := {
  hash_verifies : forall p w h w',
    pwd_context_hash p w = (Some h, w') ->
    pwd_context_verify p (VStr h) = Some true;
  sha256_unidentified : forall p h,
    pwd_context_verify p (VStr (sha256_hexdigest h)) = None
}.

(** jose: a token decodes under the key and algorithm that signed it, at
    any instant before its expiry, to claims with the subject it was
    given. *)
Definition JoseContract : Prop :=
  forall claims key algorithm sub exp now,
    lookup claims "sub" = Some (VStr sub) ->
    lookup claims "exp" = Some (VDatetime exp) ->
    now < exp ->
    exists payload,
      jwt_decode (jwt_encode claims key algorithm) key [algorithm] now
        = Some payload
      /\ lookup payload "sub" = Some (VStr sub).

(** *** Notions the properties are stated with *)

(** A run of a job request from [s] to [s'] with outcome [r] surfaces a
    failed dispatch: if its enqueue call raised, the run raised the same
    exception, and the pending record of the job is in the store. *)
Definition surfaced (s s' : state) (r : outcome JobResponse) : Prop :=
  forall (call : dispatch) (e : exn),
    enqueued s' = enqueued s ++ [call] ->
    d_raised call = Some e ->
    r = Raise e
    /\ exists record,
         In record (results (db s'))
         /\ lookup record "job_id" = Some (VStr (d_job_id call))
         /\ lookup record "status" = Some (VStr "pending").

(** The token passes the library's check of signature, structure and
    expiry under the server's secret at the present instant, it carries a
    subject, and the subject is the username of the account [user]. *)
Definition token_resolves (token : string) (s : state) (user : dict)
  : Prop :=
  exists payload,
    jwt_decode token JWT_SECRET_KEY [JWT_ALGORITHM] (utcnow (world s))
      = Some payload
    /\ get payload "sub" <> VNone
    /\ find_one (users (db s)) "username" (get payload "sub") = Some user.

(** [reply] answers the inbound object [message]: it carries the
    frame_id of the message ("unknown" when the message has none), and it
    is the missing-frame error when the message has no frame. *)
Definition replies_to (message : dict) (reply : value) : Prop :=
  exists d,
    reply = VDict d
    /\ lookup d "frame_id"
       = Some (get_default message "frame_id" (VStr "unknown"))
    /\ (forall v, lookup message "frame_id" = Some v ->
                  lookup d "frame_id" = Some v)
    /\ (truthy (get message "frame") = false ->
        reply = VDict [("error", VStr "No frame data provided");
                       ("frame_id",
                        get_default message "frame_id" (VStr "unknown"))]).

(** The expiry instant [login] gives a token issued at [now]. *)
Definition login_expiry (now : Z) : Z :=
  if negb (60 * ACCESS_TOKEN_EXPIRE_MINUTES =? 0)
  then now + 60 * ACCESS_TOKEN_EXPIRE_MINUTES
  else now + 3600 * JWT_EXPIRATION_HOURS.

End Routers.

(** ** A small concrete environment

    The world is a counter.  Digests of the hashing context carry the
    prefix "$2b$"; a token is its subject behind the signing key. *)

Module Demo.

Definition numbered (prefix : string) (n : nat) : string :=
  (prefix ++ NilZero.string_of_uint (Nat.to_uint n))%string.

Fixpoint strip_prefix (p s : string) : option string :=
  match p, s with
  | EmptyString, _ => Some s
  | String a p', String b s' =>
      if Ascii.eqb a b then strip_prefix p' s' else None
  | String _ _, EmptyString => None
  end.

Definition queue (accepted method : string) (n : nat) : option exn * nat :=
  (if String.eqb method accepted then None
   else Some (Exception "queue unavailable"), S n).

Definition verify (p : string) (h : value) : option bool :=
  match h with
  | VStr h' =>
      match strip_prefix "$2b$" h' with
      | Some body => Some (String.eqb body p)
      | None => None
      end
  | VNone => Some false
  | _ => None
  end.

Definition decode (token key : string) (algorithms : list string) (now : Z)
  : option dict :=
  match strip_prefix key token with
  | Some sub => Some [("sub", VStr sub)]
  | None => None
  end.

Definition loads (data : string) : option value :=
  if String.eqb data "frame f0" then
    Some (VDict [("frame", VStr "aGVsbG8="); ("frame_id", VStr "f0")])
  else if String.eqb data "no frame f1" then
    Some (VDict [("frame_id", VStr "f1")])
  else if String.eqb data "bad frame f2" then
    Some (VDict [("frame", VStr "????"); ("frame_id", VStr "f2")])
  else if String.eqb data "frame" then
    Some (VDict [("frame", VStr "aGVsbG8=")])
  else if String.eqb data "list" then
    Some (VList [VInt 1])
  else None.

Definition process (frame : value) (n : nat) : (string + dict) * nat :=
  (if value_eqb frame (VStr "????") then inl "cannot decode frame"
   else inr [("enhanced_frame", frame);
             ("detections", VList []);
             ("metrics", VDict [("uiqm", VInt 3)])], S n).

Definition env : Env := {|
  W := nat;
  repr := fun _ => "<object>";
  new_oid := fun n => (numbered "oid" n, S n);
  uuid4 := fun n => (numbered "job" n, S n);
  utcnow := fun n => 1700000000 + Z.of_nat n;
  enqueue_detection := fun _ _ method => queue "yolov8" method;
  enqueue_enhancement := fun _ _ method => queue "unet" method;
  pwd_context_hash := fun p n => (Some ("$2b$" ++ p)%string, S n);
  pwd_context_verify := verify;
  sha256_hexdigest := fun p => ("sha256:" ++ p)%string;
  jwt_encode := fun claims key _ =>
    (key ++ match get claims "sub" with VStr sub => sub | _ => "" end)%string;
  jwt_decode := decode;
  JWT_SECRET_KEY := "secret";
  JWT_ALGORITHM := "HS256";
  JWT_EXPIRATION_HOURS := 24;
  ACCESS_TOKEN_EXPIRE_MINUTES := 30;
  json_loads := loads;
  process_frame_stream := process
|}.

(** The same environment with a hashing backend that always raises. *)
Definition env_no_bcrypt : Env := {|
  W := nat;
  repr := fun _ => "<object>";
  new_oid := fun n => (numbered "oid" n, S n);
  uuid4 := fun n => (numbered "job" n, S n);
  utcnow := fun n => 1700000000 + Z.of_nat n;
  enqueue_detection := fun _ _ method => queue "yolov8" method;
  enqueue_enhancement := fun _ _ method => queue "unet" method;
  pwd_context_hash := fun _ n => (None, n);
  pwd_context_verify := fun _ _ => None;
  sha256_hexdigest := fun p => ("sha256:" ++ p)%string;
  jwt_encode := fun claims key _ =>
    (key ++ match get claims "sub" with VStr sub => sub | _ => "" end)%string;
  jwt_decode := decode;
  JWT_SECRET_KEY := "secret";
  JWT_ALGORITHM := "HS256";
  JWT_EXPIRATION_HOURS := 24;
  ACCESS_TOKEN_EXPIRE_MINUTES := 30;
  json_loads := loads;
  process_frame_stream := process
|}.

Definition alice : dict :=
  [("_id", VOid "a11ce"); ("username", VStr "alice")].
Definition bob : dict :=
  [("_id", VOid "b0b"); ("username", VStr "bob")].

Definition picture : dict :=
  [("_id", VOid "f1"); ("file_id", VStr "file-1"); ("user_id", VStr "a11ce")].

Definition job (job_id status : string) (more : dict) : dict :=
  [("_id", VOid "r1"); ("job_id", VStr job_id); ("user_id", VStr "a11ce");
   ("status", VStr status)] ++ more.

Definition store (E : Env) (w : @W E) (jobs : list dict) : @state E :=
  {| db := {| users := [alice; bob]; files := [picture]; results := jobs |};
     world := w; enqueued := [] |}.

End Demo.

(** ** The remaining endpoints: /auth/me and upload_router.py *)

(** What upload_router.py takes from outside the repository sources: the
    settings, pathlib and os.path, the file system (part of the world), and
    [str(e)] of an exception. *)
Class Storage {E : Env} : Type := {
  UPLOAD_DIR : string;
  MAX_FILE_SIZE : Z;
  (** [Path(name).suffix] and [os.path.join(dir, name)] *)
  path_suffix : string -> string;
  path_join : string -> string -> string;
  (** [with open(path, "wb") as f: f.write(contents)]; [Some e] is a raised
      exception *)
  write_file : string -> list Byte.byte -> W -> option exn * W;
  (** [os.path.exists(path)] and [os.remove(path)] *)
  path_exists : string -> W -> bool;
  os_remove : string -> W -> option exn * W;
  (** [str(e)] *)
  str_exn : exn -> string
}.

Section MoreRouters.

Context {E : Env} {F : Storage}.

(** The dict that [read_users_me] returns; the UserResponse schema that the
    framework then applies to it is not in the sources. *)
Definition read_users_me (current_user : dict) : M state dict :=
  (uid <- getitem current_user "_id" ;;
   name <- getitem current_user "username" ;;
   ret [("id", VStr (py_str uid));
        ("username", name);
        ("email", get current_user "email");
        ("is_active", get_default current_user "is_active" (VBool true))]
  )%handler.

(** [GET /auth/me]: the dependency [get_current_user], then the endpoint. *)
Definition me (token : string) : M state dict :=
  (current_user <- get_current_user token ;;
   read_users_me current_user)%handler.

(** What the endpoint reads of a fastapi UploadFile. *)
Record UploadFile : Type := {
  uf_filename : string;
  uf_content_type : value;
  uf_contents : list Byte.byte
}.

(** The UploadResponse schema is not in the sources; these are the keyword
    arguments [upload_file] builds it from. *)
Record UploadResponse : Type := {
  up_file_id : string;
  up_filename : string;
  up_file_size : Z;
  up_content_type : value
}.

Definition allowed_types : list value :=
  [VStr "image/jpeg"; VStr "image/png"; VStr "image/jpg"; VStr "video/mp4";
   VStr "video/avi"].

(** [v in l] *)
Definition py_in (v : value) (l : list value) : bool :=
  existsb (fun x => value_eqb x v) l.

Definition put_files (l : list dict) (d : database) : database :=
  {| users := users d; files := l; results := results d |}.

(** An operation of the world that may raise. *)
Definition attempt (f : W -> option exn * W) : M state unit :=
  (raised <- ask f ;;
   match raised with
   | Some e => raise e
   | None => ret tt
   end)%handler.

Definition upload_file (file : UploadFile) (current_user : dict)
  : M state UploadResponse :=
  (if negb (py_in (uf_content_type file) allowed_types) then
     raise (HTTPException 400
              ("File type " ++ py_str (uf_content_type file) ++
               " not supported. Allowed: ['image/jpeg', 'image/png', 'image/jpg', 'video/mp4', 'video/avi']")%string)
   else
   file_id <- ask uuid4 ;;
   let file_extension := path_suffix (uf_filename file) in
   let filename := (file_id ++ file_extension)%string in
   let file_path := path_join UPLOAD_DIR filename in
   try_except
     (let contents := uf_contents file in
      if Z.of_nat (length contents) >? MAX_FILE_SIZE
      then raise (HTTPException 400 "File too large") else
      attempt (write_file file_path contents) ;;;
      uid <- getitem current_user "_id" ;;
      created_at <- gets (fun s => utcnow (world s)) ;;
      let file_doc :=
        [("file_id", VStr file_id);
         ("filename", VStr (uf_filename file));
         ("file_path", VStr file_path);
         ("file_size", VInt (Z.of_nat (length contents)));
         ("content_type", uf_content_type file);
         ("user_id", VStr (py_str uid));
         ("created_at", VDatetime created_at)] in
      insert_one put_files files file_doc ;;;
      getitem current_user "username" ;;;      (* read by the log line *)
      ret {| up_file_id := file_id;
             up_filename := uf_filename file;
             up_file_size := Z.of_nat (length contents);
             up_content_type := uf_content_type file |})
     (fun e =>
        there <- gets (fun s => path_exists file_path (world s)) ;;
        (if there : bool then attempt (os_remove file_path) else ret tt) ;;;
        raise (HTTPException 500 ("Upload failed: " ++ str_exn e)%string))
  )%handler.

Definition get_file_info (file_id : string) (current_user : dict)
  : M state dict :=
  (file_doc <- gets (fun s => find_one (files (db s)) "file_id"
                                (VStr file_id)) ;;
   if falsy file_doc then raise (HTTPException 404 "File not found") else
   let file_doc := match file_doc with Some d => d | None => [] end in
   uid <- getitem current_user "_id" ;;
   if negb (String.eqb (py_str (get file_doc "user_id")) (py_str uid))
   then raise (HTTPException 403 "Access denied") else
   id <- getitem file_doc "file_id" ;;
   name <- getitem file_doc "filename" ;;
   path <- getitem file_doc "file_path" ;;
   size <- getitem file_doc "file_size" ;;
   type <- getitem file_doc "content_type" ;;
   ret [("file_id", id); ("filename", name); ("file_path", path);
        ("file_size", size); ("content_type", type)])%handler.

(** *** Notions the further properties are stated with *)

(** The run of a job request from [s] to [s'] that returned [resp] created
    one job: the file exists, one pending record of the given kind, owned by
    the requester, was appended to the job records, the enqueue service was
    called once with the same job id and answered, and nothing else of the
    store changed. *)
Definition job_created (kind file_id method : string) (current_user : dict)
    (s s' : state) (resp : JobResponse) : Prop :=
  r_status resp = "pending"
  /\ users (db s') = users (db s)
  /\ files (db s') = files (db s)
  /\ (exists file_doc,
        find_one (files (db s)) "file_id" (VStr file_id) = Some file_doc)
  /\ enqueued s' = enqueued s ++
       [{| d_job_id := r_job_id resp; d_file_id := file_id;
           d_method := method; d_raised := None |}]
  /\ exists uid record,
       lookup current_user "_id" = Some uid
       /\ results (db s') = results (db s) ++ [record]
       /\ lookup record "job_id" = Some (VStr (r_job_id resp))
       /\ lookup record "file_id" = Some (VStr file_id)
       /\ lookup record "user_id" = Some (VStr (py_str uid))
       /\ lookup record "job_type" = Some (VStr kind)
       /\ lookup record "status" = Some (VStr "pending")
       /\ lookup record "model_used" = Some (VStr method)
       /\ lookup record "error_message" = None.

(** From [s] to [s'] the accounts and the files are the same and the job
    records have only grown at the end. *)
Definition jobs_appended (s s' : state) : Prop :=
  users (db s') = users (db s)
  /\ files (db s') = files (db s)
  /\ exists more, results (db s') = results (db s) ++ more.

(** The run of an upload from [s] to [s'] that returned [resp] stored the
    file: its type is allowed and its size within the limit, one record
    describing it, owned by the requester, was appended to the files, and
    nothing else of the store changed. *)
Definition file_stored (file : UploadFile) (current_user : dict)
    (s s' : state) (resp : UploadResponse) : Prop :=
  py_in (uf_content_type file) allowed_types = true
  /\ Z.of_nat (length (uf_contents file)) <= MAX_FILE_SIZE
  /\ up_filename resp = uf_filename file
  /\ up_file_size resp = Z.of_nat (length (uf_contents file))
  /\ up_content_type resp = uf_content_type file
  /\ users (db s') = users (db s)
  /\ results (db s') = results (db s)
  /\ enqueued s' = enqueued s
  /\ exists uid file_doc,
       lookup current_user "_id" = Some uid
       /\ files (db s') = files (db s) ++ [file_doc]
       /\ lookup file_doc "file_id" = Some (VStr (up_file_id resp))
       /\ lookup file_doc "filename" = Some (VStr (uf_filename file))
       /\ lookup file_doc "file_path"
          = Some (VStr (path_join UPLOAD_DIR
                          (up_file_id resp ++
                           path_suffix (uf_filename file))%string))
       /\ lookup file_doc "file_size"
          = Some (VInt (Z.of_nat (length (uf_contents file))))
       /\ lookup file_doc "content_type" = Some (uf_content_type file)
       /\ lookup file_doc "user_id" = Some (VStr (py_str uid)).

(** Every event is a text that decodes to a JSON object. *)
Definition all_objects (inbound : list event) : Prop :=
  Forall (fun ev => exists data message,
                      ev = Text data
                      /\ json_loads data = Some (VDict message)) inbound.

(** The number of texts among the events. *)
Definition texts_in (inbound : list event) : nat :=
  length (filter (fun ev => match ev with Text _ => true | _ => false end)
                 inbound).

End MoreRouters.

(** The demo environment's file system: every write succeeds and ticks the
    counter; a path exists when the counter is odd. *)
Module DemoFiles.

Definition storage : @Storage Demo.env := {|
  UPLOAD_DIR := "uploads";
  MAX_FILE_SIZE := 4;
  path_suffix := fun name =>
    if String.eqb name "reef.png" then ".png" else "";
  path_join := fun dir name => (dir ++ "/" ++ name)%string;
  write_file := fun _ _ (n : @W Demo.env) => (None, S n);
  path_exists := fun _ (n : @W Demo.env) => Nat.odd n;
  os_remove := fun _ (n : @W Demo.env) => (None, S n);
  str_exn := fun e =>
    match e with
    | HTTPException code detail =>
        (NilZero.string_of_int (Z.to_int code) ++ ": " ++ detail)%string
    | Exception msg => msg
    end
|}.

Definition reef (contents : list Byte.byte) : UploadFile :=
  {| uf_filename := "reef.png"; uf_content_type := VStr "image/png";
     uf_contents := contents |}.

End DemoFiles.

(** ** Properties of the job routers *)

Ltac run_handler :=
  unfold bind, ret, raise, gets, modify, ask, getitem, try_except; simpl.

Section JobProperties.

Context {E : Env}.

Lemma find_one_matches (coll : list dict) (field : string) (v : value)
    (doc : dict) :
  find_one coll field v = Some doc ->
  exists x, lookup doc field = Some x /\ value_eqb x v = true.
Proof.
  induction coll as [|d rest IH]; simpl; [discriminate|].
  destruct (lookup d field) as [x|] eqn:Hx; auto.
  destruct (value_eqb x v) eqn:Hv; auto.
  intros [= <-]. eauto.
Qed.

Lemma found_is_true (coll : list dict) (field : string) (v : value)
    (doc : dict) :
  find_one coll field v = Some doc -> falsy (Some doc) = false.
Proof.
  intros H. apply find_one_matches in H as (x & Hx & _).
  destruct doc; [discriminate|reflexivity].
Qed.

(** The view of a job record, as both status handlers fill it. *)
Lemma detection_status_run (job_id : string) (current_user : dict)
    (s : state) (record : dict) (uid : value) :
  find_one (results (db s)) "job_id" (VStr job_id) = Some record ->
  lookup current_user "_id" = Some uid ->
  get_detection_status job_id current_user s =
    if String.eqb (py_str (get record "user_id")) (py_str uid) then
      (Return
         {| js_job_id := VStr job_id;
            js_status := get_default record "status" (VStr "unknown");
            js_result :=
              if value_eqb (get record "status") (VStr "completed")
              then VDict [("detections",
                           get_default record "detections" (VList []));
                          ("annotated_file_path",
                           get record "annotated_file_path")]
              else VNone;
            js_error := get record "error_message" |}, s)
    else (Raise (HTTPException 403 "Access denied"), s).
Proof.
  intros Hfound Hid. unfold get_detection_status. run_handler.
  rewrite Hfound, (found_is_true _ _ _ _ Hfound), Hid. simpl.
  destruct (String.eqb _ _); simpl; [|reflexivity].
  destruct (value_eqb _ _); reflexivity.
Qed.

Lemma enhancement_status_run (job_id : string) (current_user : dict)
    (s : state) (record : dict) (uid : value) :
  find_one (results (db s)) "job_id" (VStr job_id) = Some record ->
  lookup current_user "_id" = Some uid ->
  get_enhancement_status job_id current_user s =
    if String.eqb (py_str (get record "user_id")) (py_str uid) then
      (Return
         {| js_job_id := VStr job_id;
            js_status := get_default record "status" (VStr "unknown");
            js_result :=
              if value_eqb (get record "status") (VStr "completed")
              then VDict [("enhanced_file_path",
                           get record "enhanced_file_path");
                          ("metrics", get record "metrics")]
              else VNone;
            js_error := get record "error_message" |}, s)
    else (Raise (HTTPException 403 "Access denied"), s).
Proof.
  intros Hfound Hid. unfold get_enhancement_status. run_handler.
  rewrite Hfound, (found_is_true _ _ _ _ Hfound), Hid. simpl.
  destruct (String.eqb _ _); simpl; [|reflexivity].
  destruct (value_eqb _ _); reflexivity.
Qed.

Lemma status_missing_job (job_id : string) (current_user : dict)
    (s : state) :
  find_one (results (db s)) "job_id" (VStr job_id) = None ->
  get_detection_status job_id current_user s
    = (Raise (HTTPException 404 "Job not found"), s)
  /\ get_enhancement_status job_id current_user s
    = (Raise (HTTPException 404 "Job not found"), s).
Proof.
  intros H. unfold get_detection_status, get_enhancement_status.
  run_handler. rewrite H. simpl. auto.
Qed.

Lemma status_no_id (job_id : string) (current_user : dict)
    (s : state) (record : dict) :
  find_one (results (db s)) "job_id" (VStr job_id) = Some record ->
  lookup current_user "_id" = None ->
  get_detection_status job_id current_user s
    = (Raise (Exception "KeyError"), s)
  /\ get_enhancement_status job_id current_user s
    = (Raise (Exception "KeyError"), s).
Proof.
  intros Hfound Hid. unfold get_detection_status, get_enhancement_status.
  run_handler. rewrite Hfound, (found_is_true _ _ _ _ Hfound), Hid.
  simpl. auto.
Qed.

Lemma eq_str_true (v : value) (t : string) :
  value_eqb v (VStr t) = true -> v = VStr t.
Proof.
  destruct v; simpl; try discriminate.
  intros H. apply String.eqb_eq in H. now subst.
Qed.

Lemma status_returns (job_id : string) (current_user : dict)
    (s s' : state) (view : JobStatusResponse) :
  get_detection_status job_id current_user s = (Return view, s')
  \/ get_enhancement_status job_id current_user s = (Return view, s') ->
  exists record uid,
    find_one (results (db s)) "job_id" (VStr job_id) = Some record
    /\ lookup current_user "_id" = Some uid
    /\ String.eqb (py_str (get record "user_id")) (py_str uid) = true
    /\ js_status view = get_default record "status" (VStr "unknown")
    /\ js_error view = get record "error_message"
    /\ (value_eqb (get record "status") (VStr "completed") = false ->
        js_result view = VNone).
Proof.
  intros H.
  destruct (find_one (results (db s)) "job_id" (VStr job_id))
    as [record|] eqn:Hfound.
  - destruct (lookup current_user "_id") as [uid|] eqn:Hid.
    + exists record, uid.
      rewrite (detection_status_run _ _ _ _ _ Hfound Hid) in H.
      rewrite (enhancement_status_run _ _ _ _ _ Hfound Hid) in H.
      destruct (String.eqb _ _); [|destruct H; discriminate].
      destruct H as [H|H]; injection H as <- _; simpl;
        repeat split; auto; intros ->; reflexivity.
    + destruct (status_no_id _ _ _ _ Hfound Hid) as [Hd He].
      rewrite Hd, He in H. destruct H; discriminate.
  - destruct (status_missing_job job_id current_user s Hfound) as [Hd He].
    rewrite Hd, He in H. destruct H; discriminate.
Qed.

(** C1 (amended).  In every view that a status handler returns, detection
    or enhancement, [result] is null whenever the status of the job record
    is not "completed"; [error] is the record's [error_message] field
    whatever the status, hence null whenever the record has no
    [error_message]. *)
Theorem status_view_result_and_error (job_id : string)
    (current_user : dict) (s s' : state) (view : JobStatusResponse) :
  get_detection_status job_id current_user s = (Return view, s')
  \/ get_enhancement_status job_id current_user s = (Return view, s') ->
  exists record,
    find_one (results (db s)) "job_id" (VStr job_id) = Some record
    /\ (get record "status" <> VStr "completed" -> js_result view = VNone)
    /\ js_error view = get record "error_message"
    /\ (lookup record "error_message" = None -> js_error view = VNone).
Proof.
  intros H.
  apply status_returns in H
    as (record & uid & Hfound & _ & _ & _ & Herr & Hres).
  exists record. repeat split; auto.
  - intros Hst. apply Hres.
    destruct (value_eqb _ _) eqn:Heq; [|reflexivity].
    apply eq_str_true in Heq. contradiction.
  - intros Hnone. rewrite Herr. unfold get, get_default.
    now rewrite Hnone.
Qed.

(** C2.  A status query, detection or enhancement, raises 404 when no job
    record has the given job_id; it raises 403 when the record carries
    the id of account A and the requester B has another id, whatever the
    status of the job; and a view is only ever returned to a requester
    whose id is the one written in the record. *)
Theorem status_owner_only (job_id : string) (s : state) (B : dict) :
  (find_one (results (db s)) "job_id" (VStr job_id) = None ->
   get_detection_status job_id B s
     = (Raise (HTTPException 404 "Job not found"), s)
   /\ get_enhancement_status job_id B s
     = (Raise (HTTPException 404 "Job not found"), s))
  /\ (forall (record A : dict) (a b : string),
        find_one (results (db s)) "job_id" (VStr job_id) = Some record ->
        lookup A "_id" = Some (VOid a) ->
        lookup record "user_id" = Some (VStr (py_str (VOid a))) ->
        lookup B "_id" = Some (VOid b) ->
        a <> b ->
        get_detection_status job_id B s
          = (Raise (HTTPException 403 "Access denied"), s)
        /\ get_enhancement_status job_id B s
          = (Raise (HTTPException 403 "Access denied"), s))
  /\ (forall (view : JobStatusResponse) (s' : state),
        get_detection_status job_id B s = (Return view, s')
        \/ get_enhancement_status job_id B s = (Return view, s') ->
        exists record uid,
          find_one (results (db s)) "job_id" (VStr job_id) = Some record
          /\ lookup B "_id" = Some uid
          /\ py_str (get record "user_id") = py_str uid).
Proof.
  split; [apply status_missing_job|]. split.
  - intros record A a b Hfound _ Howner Hb Hab.
    rewrite (detection_status_run _ _ _ _ _ Hfound Hb).
    rewrite (enhancement_status_run _ _ _ _ _ Hfound Hb).
    unfold get, get_default. rewrite Howner. simpl.
    destruct (String.eqb a b) eqn:Heq; [|auto].
    apply String.eqb_eq in Heq. contradiction.
  - intros view s' H.
    apply status_returns in H as (record & uid & Hfound & Hid & Heq & _).
    exists record, uid. repeat split; auto.
    now apply String.eqb_eq.
Qed.

(** C10.  When the job record has no [status] field, a status query by
    its owner, detection or enhancement, returns: the view carries the
    status "unknown", which is none of pending, processing, completed and
    failed, and a null result. *)
Theorem status_unknown_when_missing (job_id : string)
    (current_user record : dict) (uid : value) (s : state) :
  find_one (results (db s)) "job_id" (VStr job_id) = Some record ->
  lookup record "status" = None ->
  lookup current_user "_id" = Some uid ->
  py_str (get record "user_id") = py_str uid ->
  let view := {| js_job_id := VStr job_id;
                 js_status := VStr "unknown";
                 js_result := VNone;
                 js_error := get record "error_message" |} in
  get_detection_status job_id current_user s = (Return view, s)
  /\ get_enhancement_status job_id current_user s = (Return view, s)
  /\ ~ In (js_status view)
         [VStr "pending"; VStr "processing"; VStr "completed";
          VStr "failed"].
Proof.
  intros Hfound Hstatus Hid Howner view.
  rewrite (detection_status_run _ _ _ _ _ Hfound Hid).
  rewrite (enhancement_status_run _ _ _ _ _ Hfound Hid).
  rewrite Howner, String.eqb_refl.
  unfold get, get_default. rewrite Hstatus. simpl.
  repeat split; auto.
  intros [H|[H|[H|[H|[]]]]]; discriminate.
Qed.

(** C3.  A job request, detection or enhancement, whose file_id matches
    no file record raises 404 "File not found" and leaves the whole state
    as it was: no job record is added and no enqueue call is made. *)
Theorem create_job_unknown_file (current_user : dict) (s : state) :
  (forall request : DetectionRequest,
     find_one (files (db s)) "file_id" (VStr (dr_file_id request)) = None ->
     detect_threats request current_user s
       = (Raise (HTTPException 404 "File not found"), s))
  /\ (forall request : EnhancementRequest,
     find_one (files (db s)) "file_id" (VStr (er_file_id request)) = None ->
     enhance_image request current_user s
       = (Raise (HTTPException 404 "File not found"), s)).
Proof.
  split; intros request H; unfold detect_threats, enhance_image;
    run_handler; now rewrite H.
Qed.

Lemma app_one_self {A} (l : list A) (x : A) : l <> l ++ [x].
Proof.
  intros H. apply (f_equal (@length A)) in H.
  rewrite length_app in H. simpl in H. lia.
Qed.

Ltac close_run :=
  intros [= <- <-] call e Hlog Hraised; simpl in Hlog;
  first
    [ now apply app_one_self in Hlog
    | apply app_inv_head in Hlog; injection Hlog as <-;
      simpl in Hraised;
      first
        [ discriminate Hraised
        | injection Hraised as <-; split; [reflexivity|]; simpl;
          eexists; split; [apply in_or_app; right; left; reflexivity|];
          split; reflexivity ] ].

Lemma detect_threats_surfaced (request : DetectionRequest)
    (current_user : dict) (s s' : state) (r : outcome JobResponse) :
  detect_threats request current_user s = (r, s') -> surfaced s s' r.
Proof.
  unfold surfaced, detect_threats, insert_one, call_enqueue. run_handler.
  destruct (falsy _); simpl; [close_run|].
  destruct (uuid4 (world s)) as [job_id w1]; simpl.
  destruct (lookup current_user "_id") as [uid|]; simpl; [|close_run].
  destruct (new_oid w1) as [oid w2]; simpl.
  destruct (enqueue_detection _ _ _ _) as [[x|] w3]; simpl; close_run.
Qed.

Lemma enhance_image_surfaced (request : EnhancementRequest)
    (current_user : dict) (s s' : state) (r : outcome JobResponse) :
  enhance_image request current_user s = (r, s') -> surfaced s s' r.
Proof.
  unfold surfaced, enhance_image, insert_one, call_enqueue. run_handler.
  destruct (falsy _); simpl; [close_run|].
  destruct (uuid4 (world s)) as [job_id w1]; simpl.
  destruct (lookup current_user "_id") as [uid|]; simpl; [|close_run].
  destruct (new_oid w1) as [oid w2]; simpl.
  destruct (enqueue_enhancement _ _ _ _) as [[x|] w3]; simpl; close_run.
Qed.

(** C6.  When the enqueue call of a job request, detection or
    enhancement, raises after the pending record was stored, the request
    does not return a response: it raises the exception of the enqueue
    call, which reaches the caller; the pending record stays in the
    store. *)
Theorem dispatch_failure_surfaces (current_user : dict) (s s' : state)
    (r : outcome JobResponse) (call : dispatch) (e : exn) :
  (exists request : DetectionRequest,
     detect_threats request current_user s = (r, s'))
  \/ (exists request : EnhancementRequest,
     enhance_image request current_user s = (r, s')) ->
  enqueued s' = enqueued s ++ [call] ->
  d_raised call = Some e ->
  r = Raise e
  /\ (forall response, r <> Return response)
  /\ exists record,
       In record (results (db s'))
       /\ lookup record "job_id" = Some (VStr (d_job_id call))
       /\ lookup record "status" = Some (VStr "pending").
Proof.
  intros Hrun Hlog Hraised.
  assert (H : surfaced s s' r).
  { destruct Hrun as [[request Hrun]|[request Hrun]];
      eauto using detect_threats_surfaced, enhance_image_surfaced. }
  destruct (H call e Hlog Hraised) as [-> Hrecord].
  repeat split; auto. discriminate.
Qed.

End JobProperties.

(** ** Properties of authentication *)

Section AuthProperties.

Context {E : Env}.

Local Arguments Z.mul : simpl never.
Local Arguments Z.add : simpl never.

Lemma find_one_appended (coll : list dict) (field : string) (v x : value)
    (doc : dict) :
  find_one coll field v = None ->
  lookup doc field = Some x ->
  value_eqb x v = true ->
  find_one (coll ++ [doc]) field v = Some doc.
Proof.
  intros Hnone Hx Hv. induction coll as [|d rest IH]; simpl in *.
  - now rewrite Hx, Hv.
  - destruct (lookup d field) as [y|]; auto.
    destruct (value_eqb y v); [discriminate|auto].
Qed.

Lemma hash_then_verify (HP : PasslibContract) (p : string) (s : state) :
  exists h s',
    get_password_hash p s = (Return h, s')
    /\ db s' = db s /\ enqueued s' = enqueued s
    /\ verify_password p (VStr h) = true
    /\ (forall h0 w, pwd_context_hash p (world s) = (Some h0, w) -> h = h0)
    /\ (forall w, pwd_context_hash p (world s) = (None, w) ->
        h = sha256_hexdigest p).
Proof.
  unfold get_password_hash, verify_password. run_handler.
  destruct (pwd_context_hash p (world s)) as [[h|] w] eqn:Hhash; simpl.
  - exists h. eexists. repeat split; simpl.
    + now rewrite (hash_verifies HP _ _ _ _ Hhash).
    + now intros h0 w0 [= <- _].
    + discriminate.
  - exists (sha256_hexdigest p). eexists. repeat split; simpl.
    + rewrite (sha256_unidentified HP). simpl. apply String.eqb_refl.
    + discriminate.
Qed.

(** C8.  Under the contract of the hashing library, the digest that
    [get_password_hash] makes of a password [p] verifies against [p],
    whether it came from the hashing context or, the context having
    raised, from the SHA-256 fallback. *)
Theorem password_round_trip (HP : PasslibContract) (p : string)
    (s : state) :
  exists h s',
    get_password_hash p s = (Return h, s')
    /\ verify_password p (VStr h) = true
    /\ (forall h0 w, pwd_context_hash p (world s) = (Some h0, w) -> h = h0)
    /\ (forall w, pwd_context_hash p (world s) = (None, w) ->
        h = sha256_hexdigest p).
Proof.
  destruct (hash_then_verify HP p s) as (h & s' & H & _ & _ & Hv & H1 & H2).
  exists h, s'. auto.
Qed.

Lemma current_user_run (token : string) (s : state) :
  get_current_user token s =
    match jwt_decode token JWT_SECRET_KEY [JWT_ALGORITHM] (utcnow (world s))
    with
    | Some payload =>
        if is_none (get payload "sub")
        then (Raise credentials_exception, s)
        else match find_one (users (db s)) "username" (get payload "sub")
             with
             | Some user => (Return user, s)
             | None => (Raise credentials_exception, s)
             end
    | None => (Raise credentials_exception, s)
    end.
Proof.
  unfold get_current_user. run_handler.
  destruct (jwt_decode _ _ _ _) as [payload|]; simpl; [|reflexivity].
  destruct (is_none _); simpl; [reflexivity|].
  destruct (find_one _ _ _); reflexivity.
Qed.

Lemma is_none_spec (v : value) : is_none v = true <-> v = VNone.
Proof. destruct v; simpl; split; congruence. Qed.

(** C4.  [get_current_user] returns an account exactly when the token
    passes the library's check of signature and expiry under the server's
    secret, carries a subject, and the subject is the username of that
    account; in every other case it raises one and the same exception,
    401 "Could not validate credentials". *)
Theorem token_validation (token : string) (s : state) :
  (forall user,
     get_current_user token s = (Return user, s)
     <-> token_resolves token s user)
  /\ (forall user s', get_current_user token s = (Return user, s') -> s' = s)
  /\ ((forall user, ~ token_resolves token s user) ->
      get_current_user token s = (Raise credentials_exception, s)).
Proof.
  rewrite current_user_run. unfold token_resolves.
  destruct (jwt_decode _ _ _ _) as [payload|].
  - destruct (is_none (get payload "sub")) eqn:Hsub.
    + apply is_none_spec in Hsub. repeat split; try discriminate.
      intros (p & [= <-] & Hp & _). contradiction.
    + assert (Hp : get payload "sub" <> VNone).
      { intros H. apply is_none_spec in H. congruence. }
      destruct (find_one _ _ _) as [user|] eqn:Hfound.
      * repeat split.
        -- intros [= <-]. eauto.
        -- intros (p & [= <-] & _ & H). congruence.
        -- now intros user0 s' [= _ <-].
        -- intros H. destruct (H user). eauto.
      * repeat split; try discriminate.
        intros (p & [= <-] & _ & H). congruence.
  - repeat split; try discriminate.
    intros (p & H & _). discriminate.
Qed.

Lemma login_unknown (form_data : OAuth2PasswordRequestForm) (s : state) :
  find_one (users (db s)) "username" (VStr (username form_data)) = None ->
  String.eqb (username form_data) "admin"
    && String.eqb (password form_data) "admin123" = false ->
  login form_data s
    = (Raise (HTTPException 401 "Incorrect username or password"), s).
Proof.
  intros Hnone Hdemo. unfold login. run_handler.
  now rewrite Hnone, Hdemo.
Qed.

Lemma login_known (form_data : OAuth2PasswordRequestForm) (s : state)
    (account : dict) (hashed sub : value) :
  find_one (users (db s)) "username" (VStr (username form_data))
    = Some account ->
  lookup account "hashed_password" = Some hashed ->
  lookup account "username" = Some sub ->
  verify_password (password form_data) hashed = true ->
  login form_data s =
    (Return
       {| access_token :=
            jwt_encode
              [("sub", sub);
               ("exp", VDatetime (login_expiry (utcnow (world s))))]
              JWT_SECRET_KEY JWT_ALGORITHM;
          token_type := "bearer" |}, s).
Proof.
  intros Hfound Hhash Hname Hverify.
  unfold login, subscript. run_handler.
  assert (Hfalsy : falsy (Some account) = false).
  { destruct account; [discriminate|reflexivity]. }
  rewrite Hfound, Hfalsy. simpl. rewrite Hhash. simpl.
  rewrite Hverify. simpl. rewrite Hname. reflexivity.
Qed.

Lemma login_provision (HP : PasslibContract) (s : state) :
  find_one (users (db s)) "username" (VStr "admin") = None ->
  (forall w, find_one (users (db s)) "_id" (VOid (fst (new_oid w))) = None) ->
  exists account s1 h,
    login {| username := "admin"; password := "admin123" |} s =
      (Return
         {| access_token :=
              jwt_encode
                [("sub", VStr "admin");
                 ("exp", VDatetime (login_expiry (utcnow (world s1))))]
                JWT_SECRET_KEY JWT_ALGORITHM;
            token_type := "bearer" |}, s1)
    /\ db s1 = put_users (users (db s) ++ [account]) (db s)
    /\ enqueued s1 = enqueued s
    /\ lookup account "username" = Some (VStr "admin")
    /\ lookup account "hashed_password" = Some (VStr h)
    /\ verify_password "admin123" (VStr h) = true.
Proof.
  intros Hnone Hfresh.
  destruct (hash_then_verify HP "admin123" s)
    as (h & s0 & Hrun & Hdb & Hlog & Hv & _).
  unfold login, insert_one, subscript.
  run_handler. rewrite Hnone. simpl. rewrite Hrun. simpl.
  destruct (new_oid (world s0)) as [oid w2] eqn:Hoid. simpl.
  pose proof (Hfresh (world s0)) as Hf. rewrite Hoid, <- Hdb in Hf.
  simpl in Hf.
  erewrite (find_one_appended _ _ _ (VOid oid) _ Hf);
    [|reflexivity|apply String.eqb_refl].
  simpl. rewrite Hv. simpl.
  set (account := [("_id", VOid oid); ("username", VStr "admin");
                   ("email", VStr "admin@example.com");
                   ("hashed_password", VStr h); ("is_active", VBool true);
                   ("created_at", VDatetime (utcnow (world s0)));
                   ("updated_at", VDatetime (utcnow (world s0)))]).
  exists account,
    {| db := put_users (users (db s0) ++ [account]) (db s0);
       world := w2; enqueued := enqueued s0 |}, h.
  split; [reflexivity|]. simpl. rewrite Hdb.
  repeat split; auto.
Qed.

Lemma login_expiry_later (now : Z) :
  0 < ACCESS_TOKEN_EXPIRE_MINUTES -> now < login_expiry now.
Proof.
  intros H. unfold login_expiry.
  destruct (Z.eqb_spec (60 * ACCESS_TOKEN_EXPIRE_MINUTES) 0); simpl; lia.
Qed.

(** C7.  Under the contracts of the hashing and token libraries, with a
    positive token lifetime and an ObjectId generator that yields unused
    ids: when no account is named "admin", the login admin / admin123
    stores that account, returns a bearer token, and the token validates
    to the account; the same login on the resulting store returns again
    and leaves the state, hence the accounts, as they are; and a login
    under any other unknown username raises 401 "Incorrect username or
    password" and changes nothing. *)
Theorem login_bootstrap (HP : PasslibContract) (HJ : JoseContract)
    (s : state) :
  0 < ACCESS_TOKEN_EXPIRE_MINUTES ->
  find_one (users (db s)) "username" (VStr "admin") = None ->
  (forall w, find_one (users (db s)) "_id" (VOid (fst (new_oid w))) = None) ->
  let admin := {| username := "admin"; password := "admin123" |} in
  exists token account s1,
    login admin s
      = (Return {| access_token := token; token_type := "bearer" |}, s1)
    /\ users (db s1) = users (db s) ++ [account]
    /\ lookup account "username" = Some (VStr "admin")
    /\ get_current_user token s1 = (Return account, s1)
    /\ (forall w log,
          let s2 := {| db := db s1; world := w; enqueued := log |} in
          exists token2,
            login admin s2
              = (Return {| access_token := token2; token_type := "bearer" |},
                 s2))
    /\ (forall form_data,
          username form_data <> "admin" ->
          find_one (users (db s)) "username" (VStr (username form_data))
            = None ->
          login form_data s
            = (Raise (HTTPException 401 "Incorrect username or password"),
               s)).
Proof.
  intros Hmin Hnone Hfresh admin.
  destruct (login_provision HP s Hnone Hfresh)
    as (account & s1 & h & Hlogin & Hdb & _ & Hname & Hhash & Hv).
  assert (Hfound : find_one (users (db s1)) "username" (VStr "admin")
                   = Some account).
  { rewrite Hdb. simpl.
    apply (find_one_appended _ _ _ (VStr "admin")); auto. }
  eexists. exists account, s1. split; [exact Hlogin|].
  split; [now rewrite Hdb|]. split; [exact Hname|]. split; [|split].
  - rewrite current_user_run.
    destruct (HJ [("sub", VStr "admin");
                  ("exp", VDatetime (login_expiry (utcnow (world s1))))]
                 JWT_SECRET_KEY JWT_ALGORITHM "admin"
                 (login_expiry (utcnow (world s1))) (utcnow (world s1)))
      as (payload & -> & Hsub);
      [reflexivity|reflexivity|now apply login_expiry_later|].
    unfold get, get_default. rewrite Hsub. simpl. now rewrite Hfound.
  - intros w log s2. eexists.
    apply (login_known admin s2 account (VStr h) (VStr "admin")); auto.
  - intros form_data Hother Hunknown.
    apply login_unknown; auto.
    destruct (String.eqb_spec (username form_data) "admin");
      [contradiction|reflexivity].
Qed.

End AuthProperties.

(** ** Properties of the streaming endpoint *)

Section StreamProperties.

Context {E : Env}.

Lemma stream_app (l1 l2 : list event) (w : W) :
  websocket_stream (l1 ++ l2) w =
    match websocket_stream l1 w with
    | (sent, Open, w') =>
        let '(sent', c, w'') := websocket_stream l2 w' in
        (sent ++ sent', c, w'')
    | closed => closed
    end.
Proof.
  revert w. induction l1 as [|ev l1 IH]; intros w; simpl.
  - now destruct (websocket_stream l2 w) as [[sent c] w'].
  - destruct ev as [data|]; [|reflexivity].
    destruct (on_text data w) as [[sent c] w1].
    destruct c; try reflexivity.
    rewrite IH.
    destruct (websocket_stream l1 w1) as [[sent1 c1] w2].
    destruct c1; try reflexivity.
    destruct (websocket_stream l2 w2) as [[sent2 c2] w3].
    now rewrite app_assoc.
Qed.

Lemma on_text_object (data : string) (message : dict) (w : W) :
  json_loads data = Some (VDict message) ->
  exists reply w',
    on_text data w = ([reply], Open, w') /\ replies_to message reply.
Proof.
  intros Hjson. unfold on_text, replies_to. rewrite Hjson.
  assert (Hid : forall v, lookup message "frame_id" = Some v ->
                Some (get_default message "frame_id" (VStr "unknown"))
                = Some v).
  { intros v Hv. unfold get_default. now rewrite Hv. }
  destruct (truthy (get message "frame")) eqn:Hframe; simpl.
  - destruct (process_frame_stream _ w) as [[e|result] w'];
      eexists; exists w'; (split; [reflexivity|]);
      eexists; (split; [reflexivity|]); simpl;
      repeat split; auto; discriminate.
  - eexists. exists w. split; [reflexivity|].
    eexists. split; [reflexivity|]. simpl. repeat split; auto.
Qed.

(** C5.  When every text received on the connection decodes to a JSON
    object, the endpoint sends exactly one message per message received,
    in the order of arrival, each carrying the frame_id of the message it
    answers; a message without a frame is answered by the error "No frame
    data provided", and the connection is still open after the last
    one. *)
Theorem stream_one_reply_per_message (texts : list string)
    (messages : list dict) (w : W) :
  Forall2 (fun data message => json_loads data = Some (VDict message))
          texts messages ->
  exists sent w',
    websocket_stream (map Text texts) w = (sent, Open, w')
    /\ length sent = length texts
    /\ Forall2 replies_to messages sent.
Proof.
  intros H. revert w.
  induction H as [|data message texts messages Hjson _ IH]; intros w.
  - exists [], w. simpl. auto.
  - destruct (on_text_object data message w Hjson)
      as (reply & w1 & Hstep & Hreply).
    destruct (IH w1) as (sent & w' & Hrun & Hlen & Hall).
    exists (reply :: sent), w'. simpl. rewrite Hstep, Hrun.
    simpl. auto.
Qed.

(** C9.  On an open connection, a text that is not valid JSON gets no
    reply and the handler closes the connection, whatever arrives next;
    a message without a frame and a frame whose processing raises are
    both answered by an error message, and the events that arrive next
    are handled. *)
Theorem stream_invalid_json_closes (before after : list event)
    (data : string) (w w' : W) (sent : list value) :
  websocket_stream before w = (sent, Open, w') ->
  (json_loads data = None ->
   websocket_stream (before ++ Text data :: after) w = (sent, Closed, w'))
  /\ (forall message,
        json_loads data = Some (VDict message) ->
        truthy (get message "frame") = false ->
        websocket_stream (before ++ Text data :: after) w =
          let '(sent', c, w'') := websocket_stream after w' in
          (sent ++
           VDict [("error", VStr "No frame data provided");
                  ("frame_id",
                   get_default message "frame_id" (VStr "unknown"))]
           :: sent', c, w''))
  /\ (forall message e w1,
        json_loads data = Some (VDict message) ->
        truthy (get message "frame") = true ->
        process_frame_stream (get message "frame") w' = (inl e, w1) ->
        websocket_stream (before ++ Text data :: after) w =
          let '(sent', c, w'') := websocket_stream after w1 in
          (sent ++
           VDict [("error", VStr e);
                  ("frame_id",
                   get_default message "frame_id" (VStr "unknown"))]
           :: sent', c, w'')).
Proof.
  intros Hbefore. rewrite stream_app, Hbefore. simpl. unfold on_text.
  repeat split.
  - intros ->. now rewrite app_nil_r.
  - intros message -> ->. simpl.
    now destruct (websocket_stream after w') as [[sent' c] w''].
  - intros message e w1 -> -> ->. simpl.
    now destruct (websocket_stream after w1) as [[sent' c] w''].
Qed.

End StreamProperties.

(** ** Concrete runs in the demo environment *)

Lemma strip_prefix_app (key rest : string) :
  Demo.strip_prefix key (key ++ rest)%string = Some rest.
Proof.
  induction key as [|a key IH]; simpl; [reflexivity|].
  now rewrite Ascii.eqb_refl.
Qed.

Lemma demo_passlib : @PasslibContract Demo.env.
Proof.
  split; simpl.
  - intros p w h w' [= <- _]. simpl. now rewrite String.eqb_refl.
  - reflexivity.
Qed.

Lemma demo_passlib_no_bcrypt : @PasslibContract Demo.env_no_bcrypt.
Proof. split; simpl; [discriminate|reflexivity]. Qed.

Lemma demo_jose : @JoseContract Demo.env.
Proof.
  intros claims key algorithm sub exp now Hsub _ _. simpl.
  unfold Demo.decode, get, get_default. rewrite Hsub, strip_prefix_app.
  eauto.
Qed.

(** C1, as the specification words it, fails: a completed job whose record
    keeps an [error_message] is shown with a non-null error, by both status
    handlers, although its status is not "failed". *)
Lemma status_error_outside_failed :
  let record :=
    Demo.job "j1" "completed" [("error_message", VStr "first attempt timed out")] in
  let s := Demo.store Demo.env 0%nat [record] in
  exists view view',
    get_detection_status (E := Demo.env) "j1" Demo.alice s = (Return view, s)
    /\ get_enhancement_status (E := Demo.env) "j1" Demo.alice s
       = (Return view', s)
    /\ find_one (results (db s)) "job_id" (VStr "j1") = Some record
    /\ js_status view = VStr "completed"
    /\ js_status view <> VStr "failed"
    /\ js_error view <> VNone
    /\ js_error view' <> VNone.
Proof.
  intros record s. do 2 eexists.
  repeat split; try reflexivity; simpl; discriminate.
Qed.

Lemma status_view_result_and_error_witness :
  let record := Demo.job "j1" "pending" [] in
  let s := Demo.store Demo.env 0%nat [record] in
  let view := {| js_job_id := VStr "j1"; js_status := VStr "pending";
                 js_result := VNone; js_error := VNone |} in
  get_detection_status (E := Demo.env) "j1" Demo.alice s = (Return view, s)
  /\ exists record,
       find_one (results (db s)) "job_id" (VStr "j1") = Some record
       /\ (get record "status" <> VStr "completed" -> js_result view = VNone)
       /\ js_error view = get record "error_message"
       /\ (lookup record "error_message" = None -> js_error view = VNone).
Proof.
  intros record s view. split; [reflexivity|].
  apply (status_view_result_and_error (E := Demo.env) "j1" Demo.alice s s view).
  left. reflexivity.
Defined.

Lemma status_owner_only_witness :
  let s := Demo.store Demo.env 0%nat [Demo.job "j1" "completed" []] in
  get_detection_status (E := Demo.env) "j7" Demo.bob s
    = (Raise (HTTPException 404 "Job not found"), s)
  /\ get_detection_status (E := Demo.env) "j1" Demo.bob s
    = (Raise (HTTPException 403 "Access denied"), s)
  /\ get_enhancement_status (E := Demo.env) "j1" Demo.bob s
    = (Raise (HTTPException 403 "Access denied"), s).
Proof.
  intros s.
  destruct (status_owner_only (E := Demo.env) "j7" s Demo.bob) as (H404 & _).
  destruct (status_owner_only (E := Demo.env) "j1" s Demo.bob) as (_ & H403 & _).
  split; [exact (proj1 (H404 eq_refl))|].
  apply (H403 (Demo.job "j1" "completed" []) Demo.alice "a11ce" "b0b");
    try reflexivity.
  discriminate.
Defined.

Lemma status_unknown_when_missing_witness :
  let record := [("_id", VOid "r2"); ("job_id", VStr "j2");
                 ("user_id", VStr "a11ce")] in
  let s := Demo.store Demo.env 0%nat [record] in
  let view := {| js_job_id := VStr "j2"; js_status := VStr "unknown";
                 js_result := VNone; js_error := VNone |} in
  get_detection_status (E := Demo.env) "j2" Demo.alice s = (Return view, s)
  /\ get_enhancement_status (E := Demo.env) "j2" Demo.alice s
     = (Return view, s)
  /\ ~ In (js_status view)
         [VStr "pending"; VStr "processing"; VStr "completed"; VStr "failed"].
Proof.
  intros record s view.
  apply (status_unknown_when_missing (E := Demo.env) "j2" Demo.alice record
           (VOid "a11ce") s); reflexivity.
Defined.

Lemma create_job_unknown_file_witness :
  let s := Demo.store Demo.env 0%nat [] in
  detect_threats (E := Demo.env)
    {| dr_file_id := "unknown"; dr_model := "yolov8" |} Demo.alice s
    = (Raise (HTTPException 404 "File not found"), s)
  /\ enhance_image (E := Demo.env)
    {| er_file_id := "unknown"; er_method := "unet" |} Demo.alice s
    = (Raise (HTTPException 404 "File not found"), s).
Proof.
  intros s.
  destruct (create_job_unknown_file (E := Demo.env) Demo.alice s) as [Hd He].
  split; [apply Hd|apply He]; reflexivity.
Defined.

Lemma dispatch_failure_surfaces_witness :
  let s := Demo.store Demo.env 0%nat [] in
  let request := {| dr_file_id := "file-1"; dr_model := "clip" |} in
  let run := detect_threats (E := Demo.env) request Demo.alice s in
  enqueued (snd run)
    = [{| d_job_id := "job0"; d_file_id := "file-1"; d_method := "clip";
          d_raised := Some (Exception "queue unavailable") |}]
  /\ fst run = Raise (Exception "queue unavailable")
  /\ (forall response, fst run <> Return response)
  /\ exists record,
       In record (results (db (snd run)))
       /\ lookup record "job_id" = Some (VStr "job0")
       /\ lookup record "status" = Some (VStr "pending").
Proof.
  intros s request run. split; [reflexivity|].
  apply (dispatch_failure_surfaces (E := Demo.env) Demo.alice s (snd run)
           (fst run)
           {| d_job_id := "job0"; d_file_id := "file-1"; d_method := "clip";
              d_raised := Some (Exception "queue unavailable") |}
           (Exception "queue unavailable")).
  - left. exists request. reflexivity.
  - reflexivity.
  - reflexivity.
Defined.

Lemma password_round_trip_witness :
  let s := Demo.store Demo.env 0%nat [] in
  exists h s',
    get_password_hash (E := Demo.env) "correct horse" s = (Return h, s')
    /\ verify_password (E := Demo.env) "correct horse" (VStr h) = true
    /\ (forall h0 w,
          pwd_context_hash (Env := Demo.env) "correct horse" (world s)
            = (Some h0, w) -> h = h0)
    /\ (forall w,
          pwd_context_hash (Env := Demo.env) "correct horse" (world s)
            = (None, w) ->
          h = sha256_hexdigest (Env := Demo.env) "correct horse").
Proof.
  intros s.
  exact (password_round_trip (E := Demo.env) demo_passlib "correct horse" s).
Defined.

(** The fallback path of C8, run: with a hashing backend that raises, the
    digest is the SHA-256 one and still verifies. *)
Example password_round_trip_fallback :
  let s := Demo.store Demo.env_no_bcrypt 0%nat [] in
  get_password_hash (E := Demo.env_no_bcrypt) "correct horse" s
    = (Return "sha256:correct horse", s)
  /\ verify_password (E := Demo.env_no_bcrypt) "correct horse"
       (VStr "sha256:correct horse") = true
  /\ verify_password (E := Demo.env_no_bcrypt) "correct horse"
       (VStr "sha256:correct hor5e") = false.
Proof. repeat split; reflexivity. Qed.

Lemma token_validation_witness :
  let s := Demo.store Demo.env 0%nat [] in
  get_current_user (E := Demo.env) "secretalice" s = (Return Demo.alice, s)
  /\ get_current_user (E := Demo.env) "forgedalice" s
     = (Raise credentials_exception, s)
  /\ get_current_user (E := Demo.env) "secretcarol" s
     = (Raise credentials_exception, s).
Proof.
  intros s. split; [|split].
  - apply (proj1 (token_validation (E := Demo.env) "secretalice" s)).
    exists [("sub", VStr "alice")].
    repeat split; [discriminate].
  - apply (proj2 (proj2 (token_validation (E := Demo.env) "forgedalice" s))).
    intros user (payload & H & _). discriminate H.
  - apply (proj2 (proj2 (token_validation (E := Demo.env) "secretcarol" s))).
    intros user (payload & [= <-] & _ & H). discriminate H.
Defined.

Lemma login_bootstrap_witness :
  let s := Demo.store Demo.env 0%nat [] in
  let admin := {| username := "admin"; password := "admin123" |} in
  exists token account s1,
    login (E := Demo.env) admin s
      = (Return {| access_token := token; token_type := "bearer" |}, s1)
    /\ users (db s1) = users (db s) ++ [account]
    /\ lookup account "username" = Some (VStr "admin")
    /\ get_current_user (E := Demo.env) token s1 = (Return account, s1)
    /\ (forall w log,
          let s2 := {| db := db s1; world := w; enqueued := log |} in
          exists token2,
            login (E := Demo.env) admin s2
              = (Return {| access_token := token2; token_type := "bearer" |},
                 s2))
    /\ (forall form_data,
          username form_data <> "admin" ->
          find_one (users (db s)) "username" (VStr (username form_data))
            = None ->
          login (E := Demo.env) form_data s
            = (Raise (HTTPException 401 "Incorrect username or password"),
               s)).
Proof.
  intros s admin.
  apply (login_bootstrap (E := Demo.env) demo_passlib demo_jose s).
  - reflexivity.
  - reflexivity.
  - intros w. reflexivity.
Defined.

Lemma stream_one_reply_per_message_witness :
  let texts := ["frame f0"; "no frame f1"; "bad frame f2"; "frame"] in
  let messages :=
    [[("frame", VStr "aGVsbG8="); ("frame_id", VStr "f0")];
     [("frame_id", VStr "f1")];
     [("frame", VStr "????"); ("frame_id", VStr "f2")];
     [("frame", VStr "aGVsbG8=")]] in
  exists sent w',
    websocket_stream (E := Demo.env) (map Text texts) 0%nat = (sent, Open, w')
    /\ length sent = length texts
    /\ Forall2 replies_to messages sent.
Proof.
  intros texts messages.
  apply (stream_one_reply_per_message (E := Demo.env) texts messages 0%nat).
  repeat constructor.
Defined.

(** The run of the previous lemma, message by message. *)
Example stream_run :
  websocket_stream (E := Demo.env)
    [Text "frame f0"; Text "no frame f1"; Text "bad frame f2"; Text "frame"]
    0%nat
  = ([VDict [("frame_id", VStr "f0"); ("enhanced_frame", VStr "aGVsbG8=");
             ("detections", VList []);
             ("metrics", VDict [("uiqm", VInt 3)])];
      VDict [("error", VStr "No frame data provided");
             ("frame_id", VStr "f1")];
      VDict [("error", VStr "cannot decode frame"); ("frame_id", VStr "f2")];
      VDict [("frame_id", VStr "unknown"); ("enhanced_frame", VStr "aGVsbG8=");
             ("detections", VList []);
             ("metrics", VDict [("uiqm", VInt 3)])]],
     Open, 3%nat).
Proof. reflexivity. Qed.

Lemma stream_invalid_json_closes_witness :
  let before := [Text "frame f0"] in
  let after := [Text "no frame f1"] in
  let first :=
    VDict [("frame_id", VStr "f0"); ("enhanced_frame", VStr "aGVsbG8=");
           ("detections", VList []);
           ("metrics", VDict [("uiqm", VInt 3)])] in
  websocket_stream (E := Demo.env) before 0%nat = ([first], Open, 1%nat)
  /\ websocket_stream (E := Demo.env) (before ++ Text "{oops" :: after) 0%nat
     = ([first], Closed, 1%nat).
Proof.
  intros before after first. split; [reflexivity|].
  apply (proj1 (stream_invalid_json_closes (E := Demo.env) before after
                  "{oops" 0%nat 1%nat [first] eq_refl)).
  reflexivity.
Defined.

(** ** Further properties of the job routers *)

Lemma value_eqb_eq : forall a b : value, value_eqb a b = true -> a = b.
Proof.
  fix IH 1. intros a b. destruct a, b; simpl; try discriminate.
  - reflexivity.
  - intros H. apply Bool.eqb_prop in H. now subst.
  - intros H. apply Z.eqb_eq in H. now subst.
  - intros H. apply Z.eqb_eq in H. now subst.
  - intros H. apply String.eqb_eq in H. now subst.
  - intros H. apply String.eqb_eq in H. now subst.
  - intros H. apply Z.eqb_eq in H. now subst.
  - intros H. f_equal. revert l0 H.
    induction l as [|u l IHl]; intros [|v l0] H; try discriminate.
    + reflexivity.
    + apply andb_prop in H as [H1 H2].
      f_equal; [apply IH; exact H1|apply IHl; exact H2].
  - intros H. f_equal. revert d0 H.
    induction d as [|[j u] d IHd]; intros [|[k v] d0] H; try discriminate.
    + reflexivity.
    + apply andb_prop in H as [H1 H3]. apply andb_prop in H1 as [H1 H2].
      apply String.eqb_eq in H1. subst k.
      f_equal; [f_equal; apply IH; exact H2|apply IHd; exact H3].
Qed.

Lemma find_one_kept (coll more : list dict) (field : string) (v : value)
    (doc : dict) :
  find_one coll field v = Some doc ->
  find_one (coll ++ more) field v = Some doc.
Proof.
  induction coll as [|d rest IH]; simpl; [discriminate|].
  destruct (lookup d field) as [x|]; auto.
  destruct (value_eqb x v); auto.
Qed.

Section MoreJobProperties.

Context {E : Env}.

Ltac job_steps s current_user :=
  unfold detect_threats, enhance_image, insert_one, call_enqueue;
  run_handler;
  match goal with
  | |- context [find_one ?c ?f ?v] =>
      destruct (find_one c f v) as [[|? ?]|] eqn:Hfile; simpl
  end;
  [ | destruct (uuid4 (world s)) as [job_id ?]; simpl;
      destruct (lookup current_user "_id") as [uid|] eqn:Hid; simpl;
      [ match goal with
        | |- context [new_oid ?w] => destruct (new_oid w) as [oid ?]; simpl
        end;
        match goal with
        | |- context [enqueue_detection ?a ?b ?c ?d] =>
            destruct (enqueue_detection a b c d) as [[?|] ?]
        | |- context [enqueue_enhancement ?a ?b ?c ?d] =>
            destruct (enqueue_enhancement a b c d) as [[?|] ?]
        end; simpl
      | ]
    | ].

Lemma detect_threats_created (request : DetectionRequest)
    (current_user : dict) (s s' : state) (resp : JobResponse) :
  detect_threats request current_user s = (Return resp, s') ->
  job_created "detection" (dr_file_id request) (dr_model request)
              current_user s s' resp.
Proof.
  unfold job_created. job_steps s current_user; try discriminate.
  intros [= <- <-]; simpl. repeat split; eauto.
  exists uid. eexists. repeat split; reflexivity.
Qed.

Lemma enhance_image_created (request : EnhancementRequest)
    (current_user : dict) (s s' : state) (resp : JobResponse) :
  enhance_image request current_user s = (Return resp, s') ->
  job_created "enhancement" (er_file_id request) (er_method request)
              current_user s s' resp.
Proof.
  unfold job_created. job_steps s current_user; try discriminate.
  intros [= <- <-]; simpl. repeat split; eauto.
  exists uid. eexists. repeat split; reflexivity.
Qed.

(** X1.  Whenever a job request, detection or enhancement, returns a
    response, the response says "pending" and exactly one job was created:
    one pending record of that kind, owned by the requester and naming the
    file and the method, was appended, the enqueue service was called once
    with the job id of the response, and accounts and files are as
    before. *)
Theorem create_job_returns (current_user : dict) (s s' : state)
    (resp : JobResponse) :
  (forall request : DetectionRequest,
     detect_threats request current_user s = (Return resp, s') ->
     job_created "detection" (dr_file_id request) (dr_model request)
                 current_user s s' resp)
  /\ (forall request : EnhancementRequest,
     enhance_image request current_user s = (Return resp, s') ->
     job_created "enhancement" (er_file_id request) (er_method request)
                 current_user s s' resp).
Proof.
  split; intros request;
    [apply detect_threats_created|apply enhance_image_created].
Qed.

Lemma create_job_appends (current_user : dict) (s s' : state)
    (r : outcome JobResponse) :
  (exists request : DetectionRequest,
     detect_threats request current_user s = (r, s'))
  \/ (exists request : EnhancementRequest,
     enhance_image request current_user s = (r, s')) ->
  jobs_appended s s'.
Proof.
  unfold jobs_appended.
  intros [[request H]|[request H]]; revert H;
    job_steps s current_user; intros [= _ <-]; simpl;
    repeat split; eauto;
    exists []; now rewrite app_nil_r.
Qed.

Lemma created_then_found (kind file_id method : string)
    (current_user : dict) (s s' : state) (resp : JobResponse) :
  job_created kind file_id method current_user s s' resp ->
  find_one (results (db s)) "job_id" (VStr (r_job_id resp)) = None ->
  exists uid record,
    lookup current_user "_id" = Some uid
    /\ find_one (results (db s')) "job_id" (VStr (r_job_id resp))
       = Some record
    /\ get record "user_id" = VStr (py_str uid)
    /\ get record "status" = VStr "pending"
    /\ get record "error_message" = VNone.
Proof.
  intros (_ & _ & _ & _ & _ & uid & record & Hid & Hres & Hjob & _ & Huser
          & _ & Hstatus & _ & Herr) Hnew.
  exists uid, record. split; [exact Hid|]. split.
  - rewrite Hres.
    apply (find_one_appended _ _ _ (VStr (r_job_id resp))); auto.
    simpl. apply String.eqb_refl.
  - unfold get, get_default. now rewrite Huser, Hstatus, Herr.
Qed.

(** X2.  After a job request returned, a status query by the same
    requester on the job id of the response, on the matching endpoint,
    returns status "pending" with null result and null error, provided the
    generated job id was not already the id of a stored job. *)
Theorem create_then_status (current_user : dict) (s s' : state)
    (resp : JobResponse) :
  find_one (results (db s)) "job_id" (VStr (r_job_id resp)) = None ->
  let view := {| js_job_id := VStr (r_job_id resp);
                 js_status := VStr "pending";
                 js_result := VNone; js_error := VNone |} in
  (forall request : DetectionRequest,
     detect_threats request current_user s = (Return resp, s') ->
     get_detection_status (r_job_id resp) current_user s'
       = (Return view, s'))
  /\ (forall request : EnhancementRequest,
     enhance_image request current_user s = (Return resp, s') ->
     get_enhancement_status (r_job_id resp) current_user s'
       = (Return view, s')).
Proof.
  intros Hnew view. split; intros request Hrun.
  - apply detect_threats_created in Hrun.
    destruct (created_then_found _ _ _ _ _ _ _ Hrun Hnew)
      as (uid & record & Hid & Hfound & Huser & Hstatus & Herr).
    rewrite (detection_status_run _ _ _ _ _ Hfound Hid).
    rewrite Huser, Hstatus, Herr. simpl. rewrite String.eqb_refl.
    unfold get_default. unfold get, get_default in Hstatus.
    destruct (lookup record "status"); [now subst|discriminate].
  - apply enhance_image_created in Hrun.
    destruct (created_then_found _ _ _ _ _ _ _ Hrun Hnew)
      as (uid & record & Hid & Hfound & Huser & Hstatus & Herr).
    rewrite (enhancement_status_run _ _ _ _ _ Hfound Hid).
    rewrite Huser, Hstatus, Herr. simpl. rewrite String.eqb_refl.
    unfold get_default. unfold get, get_default in Hstatus.
    destruct (lookup record "status"); [now subst|discriminate].
Qed.

Lemma status_by_lookup (job_id : string) (current_user : dict)
    (s1 s2 : state) :
  find_one (results (db s1)) "job_id" (VStr job_id)
    = find_one (results (db s2)) "job_id" (VStr job_id) ->
  fst (get_detection_status job_id current_user s1)
    = fst (get_detection_status job_id current_user s2)
  /\ fst (get_enhancement_status job_id current_user s1)
    = fst (get_enhancement_status job_id current_user s2).
Proof.
  intros H. unfold get_detection_status, get_enhancement_status.
  run_handler. rewrite H. clear H.
  generalize (find_one (results (db s2)) "job_id" (VStr job_id)).
  intros [[|binding record]|]; simpl; auto.
  destruct (lookup current_user "_id"); simpl; auto.
  destruct (negb _); simpl; auto.
Qed.

(** X3.  A job request, whatever its outcome, leaves accounts and files as
    they are and only appends to the job records; every status query on a
    job that was stored before answers after the request what it answered
    before it. *)
Theorem create_keeps_existing_jobs (current_user : dict) (s s' : state)
    (r : outcome JobResponse) :
  (exists request : DetectionRequest,
     detect_threats request current_user s = (r, s'))
  \/ (exists request : EnhancementRequest,
     enhance_image request current_user s = (r, s')) ->
  jobs_appended s s'
  /\ forall (job_id : string) (requester record : dict),
       find_one (results (db s)) "job_id" (VStr job_id) = Some record ->
       fst (get_detection_status job_id requester s')
         = fst (get_detection_status job_id requester s)
       /\ fst (get_enhancement_status job_id requester s')
         = fst (get_enhancement_status job_id requester s).
Proof.
  intros Hrun. pose proof (create_job_appends _ _ _ _ Hrun) as Happ.
  split; [exact Happ|].
  destruct Happ as (_ & _ & more & Hres).
  intros job_id requester record Hfound.
  apply status_by_lookup. rewrite Hres, Hfound.
  now apply find_one_kept.
Qed.

(** X5.  The two status endpoints do not look at the kind of the job: on
    the same job id, requester and state they raise the same exception or
    both return, with the same job id, status and error, and a result that
    is null for the one exactly when it is null for the other. *)
Theorem status_kind_not_checked (job_id : string) (current_user : dict)
    (s : state) :
  match fst (get_detection_status job_id current_user s),
        fst (get_enhancement_status job_id current_user s) with
  | Return v, Return v' =>
      js_job_id v = js_job_id v'
      /\ js_status v = js_status v'
      /\ js_error v = js_error v'
      /\ (js_result v = VNone <-> js_result v' = VNone)
  | Raise e, Raise e' => e = e'
  | _, _ => False
  end.
Proof.
  destruct (find_one (results (db s)) "job_id" (VStr job_id))
    as [record|] eqn:Hfound.
  - destruct (lookup current_user "_id") as [uid|] eqn:Hid.
    + rewrite (detection_status_run _ _ _ _ _ Hfound Hid).
      rewrite (enhancement_status_run _ _ _ _ _ Hfound Hid).
      destruct (String.eqb _ _); simpl; [|reflexivity].
      repeat split; auto; destruct (value_eqb _ _); auto; discriminate.
    + destruct (status_no_id _ _ _ _ Hfound Hid) as [-> ->]. reflexivity.
  - destruct (status_missing_job job_id current_user s Hfound) as [-> ->].
    reflexivity.
Qed.

End MoreJobProperties.

(** ** Further properties of authentication *)

Section MoreAuthProperties.

Context {E : Env}.

Local Arguments Z.mul : simpl never.
Local Arguments Z.add : simpl never.

Lemma lookup_setitem_eq (d : dict) (k : string) (v : value) :
  lookup (setitem d k v) k = Some v.
Proof.
  induction d as [|[k' v'] d IH]; simpl.
  - now rewrite String.eqb_refl.
  - destruct (String.eqb k' k) eqn:Hk; simpl.
    + now rewrite String.eqb_refl.
    + now rewrite Hk.
Qed.

Lemma lookup_setitem_ne (d : dict) (k k' : string) (v : value) :
  k' <> k -> lookup (setitem d k v) k' = lookup d k'.
Proof.
  intros Hne. induction d as [|[j u] d IH]; simpl.
  - destruct (String.eqb_spec k k'); [congruence|reflexivity].
  - destruct (String.eqb_spec j k) as [->|Hj]; simpl.
    + destruct (String.eqb_spec k k'); [congruence|reflexivity].
    + now rewrite IH.
Qed.

(** X6.  The token [create_access_token] makes encodes, under the
    server's key and algorithm, the given claims with "exp" set to the
    expiry, replacing any "exp" the claims had and leaving every other key
    as given.  The expiry is the clock plus the given delta; with no delta,
    or a delta of zero, it is the clock plus JWT_EXPIRATION_HOURS hours.
    The state is not changed. *)
Theorem access_token_claims (data : dict) (expires_delta : option Z)
    (s : state) :
  let now := utcnow (world s) in
  let expire :=
    match expires_delta with
    | Some delta =>
        if delta =? 0 then now + 3600 * JWT_EXPIRATION_HOURS else now + delta
    | None => now + 3600 * JWT_EXPIRATION_HOURS
    end in
  exists claims,
    create_access_token data expires_delta s
      = (Return (jwt_encode claims JWT_SECRET_KEY JWT_ALGORITHM), s)
    /\ lookup claims "exp" = Some (VDatetime expire)
    /\ forall k, k <> "exp" -> lookup claims k = lookup data k.
Proof.
  intros now expire. exists (setitem data "exp" (VDatetime expire)).
  split; [|split].
  - unfold create_access_token, expire, now. run_handler.
    destruct expires_delta as [delta|]; [|reflexivity].
    destruct (delta =? 0); reflexivity.
  - apply lookup_setitem_eq.
  - intros k Hk. now apply lookup_setitem_ne.
Qed.

(** X7.  Under the contract of the token library, a token issued by
    [create_access_token] for the username of a stored account, with a
    non-zero lifetime, is accepted by [get_current_user], which returns
    that account, in every state with the same accounts whose clock is
    before the expiry. *)
Theorem issued_token_validates (HJ : JoseContract) (u : string)
    (account : dict) (delta : Z) (s : state) :
  find_one (users (db s)) "username" (VStr u) = Some account ->
  delta <> 0 ->
  exists token,
    create_access_token [("sub", VStr u)] (Some delta) s = (Return token, s)
    /\ forall s2,
         users (db s2) = users (db s) ->
         utcnow (world s2) < utcnow (world s) + delta ->
         get_current_user token s2 = (Return account, s2).
Proof.
  intros Hfound Hdelta. eexists. split.
  - unfold create_access_token. run_handler. reflexivity.
  - intros s2 Husers Hnow. rewrite current_user_run.
    apply Z.eqb_neq in Hdelta. rewrite Hdelta. simpl.
    destruct (HJ [("sub", VStr u);
                  ("exp", VDatetime (utcnow (world s) + delta))]
                 JWT_SECRET_KEY JWT_ALGORITHM u
                 (utcnow (world s) + delta) (utcnow (world s2)))
      as (payload & -> & Hsub); [reflexivity|reflexivity|exact Hnow|].
    unfold get, get_default. rewrite Hsub. simpl.
    now rewrite Husers, Hfound.
Qed.

(** X8.  A login under the username of a stored account is decided by the
    stored digest alone: it returns a bearer token whose subject is the
    username stored in the account when the password verifies, and raises
    401 "Incorrect username or password" otherwise; an account without a
    [hashed_password] field makes it raise KeyError.  In each case the
    state is unchanged, also for the demo pair admin / admin123. *)
Theorem login_existing_account (form_data : OAuth2PasswordRequestForm)
    (account : dict) (s : state) :
  find_one (users (db s)) "username" (VStr (username form_data))
    = Some account ->
  (lookup account "hashed_password" = None ->
   login form_data s = (Raise (Exception "KeyError"), s))
  /\ (forall hashed sub,
        lookup account "hashed_password" = Some hashed ->
        lookup account "username" = Some sub ->
        login form_data s =
          if verify_password (password form_data) hashed
          then (Return
                  {| access_token :=
                       jwt_encode
                         [("sub", sub);
                          ("exp",
                           VDatetime (login_expiry (utcnow (world s))))]
                         JWT_SECRET_KEY JWT_ALGORITHM;
                     token_type := "bearer" |}, s)
          else (Raise (HTTPException 401 "Incorrect username or password"),
                s)).
Proof.
  intros Hfound. pose proof (found_is_true _ _ _ _ Hfound) as Hfalsy. split.
  - intros Hnone. unfold login, subscript. run_handler.
    rewrite Hfound, Hfalsy. simpl. now rewrite Hnone.
  - intros hashed sub Hhash Hname.
    destruct (verify_password (password form_data) hashed) eqn:Hv.
    + now apply (login_known form_data s account hashed sub).
    + unfold login, subscript. run_handler.
      rewrite Hfound, Hfalsy. simpl. rewrite Hhash. simpl. now rewrite Hv.
Qed.

(** X9.  A login, whatever its outcome, leaves files, job records and the
    trace of enqueue calls as they are and never removes or alters an
    account; it adds an account, and then exactly one, only when the form
    is admin / admin123 and no account is named "admin". *)
Theorem login_changes_only_on_bootstrap
    (form_data : OAuth2PasswordRequestForm) (s s' : state)
    (r : outcome Token) :
  login form_data s = (r, s') ->
  files (db s') = files (db s)
  /\ results (db s') = results (db s)
  /\ enqueued s' = enqueued s
  /\ exists added,
       users (db s') = users (db s) ++ added
       /\ (length added <= 1)%nat
       /\ (added <> [] ->
           username form_data = "admin"
           /\ password form_data = "admin123"
           /\ find_one (users (db s)) "username" (VStr "admin") = None).
Proof.
  assert (Hsame : forall s0 : state,
            files (db s0) = files (db s0)
            /\ results (db s0) = results (db s0)
            /\ enqueued s0 = enqueued s0
            /\ exists added,
                 users (db s0) = users (db s0) ++ added
                 /\ (length added <= 1)%nat
                 /\ (added <> [] ->
                     username form_data = "admin"
                     /\ password form_data = "admin123"
                     /\ find_one (users (db s0)) "username" (VStr "admin")
                        = None)).
  { intros s0. do 3 (split; [reflexivity|]). exists [].
    rewrite app_nil_r. split; [reflexivity|]. split; [simpl; lia|].
    congruence. }
  unfold login, get_password_hash, insert_one, subscript,
    create_access_token.
  run_handler.
  destruct (find_one (users (db s)) "username" (VStr (username form_data)))
    as [account|] eqn:Hfound.
  - rewrite (found_is_true _ _ _ _ Hfound). simpl.
    destruct (lookup account "hashed_password"); simpl;
      [|intros [= _ <-]; apply Hsame].
    destruct (negb _); simpl; [intros [= _ <-]; apply Hsame|].
    destruct (lookup account "username"); simpl;
      intros [= _ <-]; apply Hsame.
  - simpl.
    destruct (String.eqb_spec (username form_data) "admin") as [Hu|Hu];
      simpl; [|intros [= _ <-]; apply Hsame].
    destruct (String.eqb_spec (password form_data) "admin123") as [Hp|Hp];
      simpl; [|intros [= _ <-]; apply Hsame].
    rewrite Hu in Hfound.
    destruct (pwd_context_hash "admin123" (world s)) as [[h|] w1]; simpl;
      destruct (new_oid w1) as [oid w2]; simpl;
      match goal with
      | |- context [find_one ?c "_id" ?v] =>
          destruct (find_one c "_id" v) as [created|]; simpl
      end;
      try (destruct (lookup created "hashed_password"); simpl);
      try (destruct (negb _); simpl);
      try (destruct (lookup created "username"); simpl);
      intros [= _ <-]; simpl; repeat split;
      eexists; (split; [reflexivity|]); simpl; auto.
Qed.

End MoreAuthProperties.

(** ** Properties of /auth/me and of the upload router *)

Section UploadProperties.

Context {E : Env} {F : Storage}.

Lemma file_info_run (file_id : string) (current_user : dict) (s : state)
    (file_doc : dict) (uid : value) :
  find_one (files (db s)) "file_id" (VStr file_id) = Some file_doc ->
  lookup current_user "_id" = Some uid ->
  get_file_info file_id current_user s =
    if String.eqb (py_str (get file_doc "user_id")) (py_str uid) then
      match lookup file_doc "file_id", lookup file_doc "filename",
            lookup file_doc "file_path", lookup file_doc "file_size",
            lookup file_doc "content_type" with
      | Some id, Some name, Some path, Some size, Some type =>
          (Return [("file_id", id); ("filename", name); ("file_path", path);
                   ("file_size", size); ("content_type", type)], s)
      | _, _, _, _, _ => (Raise (Exception "KeyError"), s)
      end
    else (Raise (HTTPException 403 "Access denied"), s).
Proof.
  intros Hfound Hid. unfold get_file_info. run_handler.
  rewrite Hfound, (found_is_true _ _ _ _ Hfound), Hid. simpl.
  destruct (String.eqb _ _); simpl; [|reflexivity].
  repeat match goal with
         | |- context [lookup file_doc ?k] =>
             destruct (lookup file_doc k); simpl; try reflexivity
         end.
Qed.

Lemma file_info_missing (file_id : string) (current_user : dict)
    (s : state) :
  find_one (files (db s)) "file_id" (VStr file_id) = None ->
  get_file_info file_id current_user s
    = (Raise (HTTPException 404 "File not found"), s).
Proof.
  intros H. unfold get_file_info. run_handler. now rewrite H.
Qed.

Lemma file_info_no_id (file_id : string) (current_user : dict) (s : state)
    (file_doc : dict) :
  find_one (files (db s)) "file_id" (VStr file_id) = Some file_doc ->
  lookup current_user "_id" = None ->
  get_file_info file_id current_user s = (Raise (Exception "KeyError"), s).
Proof.
  intros Hfound Hid. unfold get_file_info. run_handler.
  now rewrite Hfound, (found_is_true _ _ _ _ Hfound), Hid.
Qed.

(** X10.  [get_file_info] raises 404 when no file record has the file_id,
    and 403 when the record carries the id of another account than the
    requester; the information it returns is that of a record whose
    [user_id] is the requester's id, field by field. *)
Theorem file_info_owner_only (file_id : string) (s : state) (B : dict) :
  (find_one (files (db s)) "file_id" (VStr file_id) = None ->
   get_file_info file_id B s
     = (Raise (HTTPException 404 "File not found"), s))
  /\ (forall (file_doc : dict) (a b : string),
        find_one (files (db s)) "file_id" (VStr file_id) = Some file_doc ->
        lookup file_doc "user_id" = Some (VStr a) ->
        lookup B "_id" = Some (VOid b) ->
        a <> b ->
        get_file_info file_id B s
          = (Raise (HTTPException 403 "Access denied"), s))
  /\ (forall (info : dict) (s' : state),
        get_file_info file_id B s = (Return info, s') ->
        exists file_doc uid,
          find_one (files (db s)) "file_id" (VStr file_id) = Some file_doc
          /\ lookup B "_id" = Some uid
          /\ py_str (get file_doc "user_id") = py_str uid
          /\ forall k,
               In k ["file_id"; "filename"; "file_path"; "file_size";
                     "content_type"] ->
               lookup info k = lookup file_doc k /\ lookup info k <> None).
Proof.
  split; [apply file_info_missing|]. split.
  - intros file_doc a b Hfound Howner Hb Hab.
    rewrite (file_info_run _ _ _ _ _ Hfound Hb).
    unfold get, get_default. rewrite Howner. simpl.
    destruct (String.eqb_spec a b); [contradiction|reflexivity].
  - intros info s'.
    destruct (find_one (files (db s)) "file_id" (VStr file_id))
      as [file_doc|] eqn:Hfound;
      [|rewrite (file_info_missing _ _ _ Hfound); discriminate].
    destruct (lookup B "_id") as [uid|] eqn:Hid;
      [|rewrite (file_info_no_id _ _ _ _ Hfound Hid); discriminate].
    rewrite (file_info_run _ _ _ _ _ Hfound Hid).
    destruct (String.eqb_spec (py_str (get file_doc "user_id")) (py_str uid))
      as [Heq|]; [|discriminate].
    destruct (lookup file_doc "file_id") eqn:H1; [|discriminate].
    destruct (lookup file_doc "filename") eqn:H2; [|discriminate].
    destruct (lookup file_doc "file_path") eqn:H3; [|discriminate].
    destruct (lookup file_doc "file_size") eqn:H4; [|discriminate].
    destruct (lookup file_doc "content_type") eqn:H5; [|discriminate].
    intros [= <- _]. exists file_doc, uid. repeat split; auto;
      destruct H as [<-|[<-|[<-|[<-|[<-|[]]]]]]; simpl;
      try congruence; discriminate.
Qed.

Ltac upload_steps s current_user :=
  unfold upload_file;
  match goal with
  | |- context [py_in ?t allowed_types] =>
      destruct (py_in t allowed_types) eqn:Htype
  end;
  unfold attempt, insert_one; run_handler;
  [ destruct (uuid4 (world s)) as [file_id ?]; simpl;
    destruct (Z.of_nat _ >? MAX_FILE_SIZE) eqn:Hsize; simpl;
    [ | match goal with
        | |- context [write_file ?p ?c ?w] =>
            destruct (write_file p c w) as [[?|] ?]; simpl
        end;
        [ | destruct (lookup current_user "_id") as [uid|] eqn:Hid; simpl;
            [ match goal with
              | |- context [new_oid ?w] =>
                  destruct (new_oid w) as [oid ?]; simpl
              end;
              destruct (lookup current_user "username") eqn:Hname; simpl
            | ] ] ];
    try (match goal with
         | |- context [path_exists ?p ?w] =>
             destruct (path_exists p w) eqn:Hthere; simpl
         end;
         try match goal with
             | |- context [os_remove ?p ?w] =>
                 destruct (os_remove p w) as [[?|] ?] eqn:Hremove; simpl
             end)
  | ].

Lemma upload_file_stored (file : UploadFile) (current_user : dict)
    (s s' : state) (resp : UploadResponse) :
  upload_file file current_user s = (Return resp, s') ->
  file_stored file current_user s s' resp.
Proof.
  unfold file_stored. upload_steps s current_user; try discriminate.
  intros [= <- <-]; simpl.
  split; [reflexivity|]. split; [rewrite Z.gtb_ltb in Hsize; now apply Z.ltb_ge in Hsize|].
  do 6 (split; [reflexivity|]).
  exists uid. eexists. repeat split; reflexivity.
Qed.

(** X11.  Whenever an upload returns a response, the content type is one
    of the five allowed, the size is at most MAX_FILE_SIZE, and exactly one
    file record was appended: it carries the file id of the response, the
    name, path, size and type of the file and the requester's id; accounts
    and job records are as before. *)
Theorem upload_returns (file : UploadFile) (current_user : dict)
    (s s' : state) (resp : UploadResponse) :
  upload_file file current_user s = (Return resp, s') ->
  file_stored file current_user s s' resp.
Proof. apply upload_file_stored. Qed.

(** X12.  After an upload returned, [get_file_info] by the same requester
    on the file id of the response returns the id, name, path, size and
    type that were uploaded, provided the generated file id was not already
    the id of a stored file. *)
Theorem upload_then_file_info (file : UploadFile) (current_user : dict)
    (s s' : state) (resp : UploadResponse) :
  upload_file file current_user s = (Return resp, s') ->
  find_one (files (db s)) "file_id" (VStr (up_file_id resp)) = None ->
  get_file_info (up_file_id resp) current_user s' =
    (Return
       [("file_id", VStr (up_file_id resp));
        ("filename", VStr (uf_filename file));
        ("file_path",
         VStr (path_join UPLOAD_DIR
                 (up_file_id resp ++ path_suffix (uf_filename file))%string));
        ("file_size", VInt (Z.of_nat (length (uf_contents file))));
        ("content_type", uf_content_type file)], s').
Proof.
  intros Hrun Hnew. apply upload_file_stored in Hrun.
  destruct Hrun as (_ & _ & _ & _ & _ & _ & _ & _ & uid & file_doc & Hid
                    & Hfiles & H1 & H2 & H3 & H4 & H5 & H6).
  assert (Hfound : find_one (files (db s')) "file_id"
                     (VStr (up_file_id resp)) = Some file_doc).
  { rewrite Hfiles.
    apply (find_one_appended _ _ _ (VStr (up_file_id resp))); auto.
    simpl. apply String.eqb_refl. }
  rewrite (file_info_run _ _ _ _ _ Hfound Hid).
  unfold get, get_default. rewrite H6. simpl. rewrite String.eqb_refl.
  now rewrite H1, H2, H3, H4, H5.
Qed.

(** X13.  An upload whose content type is not one of the five allowed
    raises 400 and leaves the state as it is.  An upload of an allowed type
    whose size exceeds MAX_FILE_SIZE never returns and stores no record; the
    400 "File too large" raised for it is caught by the handler's own
    except clause, so that what reaches the caller is 500 "Upload failed:
    ..." carrying the text of that exception, unless removing a file
    already at the path raises, in which case that exception reaches the
    caller. *)
Theorem upload_rejections (file : UploadFile) (current_user : dict)
    (s : state) :
  (py_in (uf_content_type file) allowed_types = false ->
   upload_file file current_user s =
     (Raise (HTTPException 400
               ("File type " ++ py_str (uf_content_type file) ++
                " not supported. Allowed: ['image/jpeg', 'image/png', 'image/jpg', 'video/mp4', 'video/avi']")%string),
      s))
  /\ (py_in (uf_content_type file) allowed_types = true ->
      MAX_FILE_SIZE < Z.of_nat (length (uf_contents file)) ->
      forall r s',
        upload_file file current_user s = (r, s') ->
        db s' = db s
        /\ enqueued s' = enqueued s
        /\ (r = Raise (HTTPException 500
                         ("Upload failed: " ++
                          str_exn (HTTPException 400 "File too large"))%string)
            \/ exists path w e w',
                 path_exists path w = true
                 /\ os_remove path w = (Some e, w')
                 /\ r = Raise e)).
Proof.
  split.
  - intros Htype. unfold upload_file. now rewrite Htype.
  - intros Htype0 Hbig r s'. apply Z.gtb_lt in Hbig.
    upload_steps s current_user; try congruence;
      intros [= <- <-]; simpl; repeat split; eauto 10.
Qed.

(** X14.  An upload, whatever its outcome, leaves accounts, job records and
    the trace of enqueue calls as they are, and never removes or alters a
    file record: it appends at most one. *)
Theorem upload_changes_only_files (file : UploadFile) (current_user : dict)
    (s s' : state) (r : outcome UploadResponse) :
  upload_file file current_user s = (r, s') ->
  users (db s') = users (db s)
  /\ results (db s') = results (db s)
  /\ enqueued s' = enqueued s
  /\ exists added,
       files (db s') = files (db s) ++ added /\ (length added <= 1)%nat.
Proof.
  upload_steps s current_user; intros [= _ <-]; simpl;
    do 3 (split; [reflexivity|]);
    first [ exists []; rewrite app_nil_r; split; [reflexivity|simpl; lia]
          | eexists; split; [reflexivity|simpl; lia] ].
Qed.

End UploadProperties.

(** ** Properties across the routers *)

Section AcrossRouters.

Context {E : Env}.

(** X4.  The reading endpoints never change the state, whatever they
    answer: the two status queries, token validation, /auth/me and
    [get_file_info]. *)
Theorem get_endpoints_read_only (s s' : state) :
  (forall job_id current_user r,
     get_detection_status job_id current_user s = (r, s')
     \/ get_enhancement_status job_id current_user s = (r, s') -> s' = s)
  /\ (forall token r, get_current_user token s = (r, s') -> s' = s)
  /\ (forall token r, me token s = (r, s') -> s' = s)
  /\ (forall file_id current_user r,
        get_file_info file_id current_user s = (r, s') -> s' = s).
Proof.
  repeat split.
  - intros job_id current_user r.
    unfold get_detection_status, get_enhancement_status. run_handler.
    destruct (falsy _); simpl; [intros [[= _ <-]|[= _ <-]]; reflexivity|].
    destruct (lookup current_user "_id"); simpl;
      [|intros [[= _ <-]|[= _ <-]]; reflexivity].
    destruct (negb _); simpl; intros [[= _ <-]|[= _ <-]]; reflexivity.
  - intros token r. rewrite current_user_run.
    destruct (jwt_decode _ _ _ _); [|now intros [= _ <-]].
    destruct (is_none _); [now intros [= _ <-]|].
    destruct (find_one _ _ _); now intros [= _ <-].
  - intros token r. unfold me, bind. rewrite current_user_run.
    destruct (jwt_decode _ _ _ _); [|now intros [= _ <-]].
    destruct (is_none _); [now intros [= _ <-]|].
    destruct (find_one _ _ _) as [user|]; [|now intros [= _ <-]].
    unfold read_users_me. run_handler.
    destruct (lookup user "_id"); simpl; [|now intros [= _ <-]].
    destruct (lookup user "username"); simpl; now intros [= _ <-].
  - intros file_id current_user r. unfold get_file_info. run_handler.
    destruct (find_one _ _ _) as [file_doc|] eqn:Hfound;
      [rewrite (found_is_true _ _ _ _ Hfound); simpl
      |simpl; now intros [= _ <-]].
    destruct (lookup current_user "_id"); simpl; [|now intros [= _ <-]].
    destruct (negb _); simpl; [now intros [= _ <-]|].
    repeat match goal with
           | |- context [lookup file_doc ?k] =>
               destruct (lookup file_doc k); simpl
           end; now intros [= _ <-].
Qed.

(** X15.  When /auth/me returns, the token passed the library's check and
    the "username" of the answer is the subject of the token; its
    "is_active" is true when the account has no such field. *)
Theorem me_returns_subject (token : string) (s s' : state) (answer : dict) :
  me token s = (Return answer, s') ->
  exists payload user,
    jwt_decode token JWT_SECRET_KEY [JWT_ALGORITHM] (utcnow (world s))
      = Some payload
    /\ get payload "sub" <> VNone
    /\ find_one (users (db s)) "username" (get payload "sub") = Some user
    /\ lookup answer "username" = Some (get payload "sub")
    /\ (lookup user "is_active" = None ->
        lookup answer "is_active" = Some (VBool true)).
Proof.
  unfold me, bind. rewrite current_user_run.
  destruct (jwt_decode _ _ _ _) as [payload|]; [|discriminate].
  destruct (is_none (get payload "sub")) eqn:Hsub; [discriminate|].
  destruct (find_one _ _ _) as [user|] eqn:Hfound; [|discriminate].
  unfold read_users_me. run_handler.
  destruct (lookup user "_id"); simpl; [|discriminate].
  destruct (lookup user "username") as [name|] eqn:Hname; simpl;
    [|discriminate].
  intros [= <- _]. exists payload, user.
  split; [reflexivity|]. split.
  { intros H. rewrite H in Hsub. discriminate. }
  split; [exact Hfound|].
  apply find_one_matches in Hfound as (x & Hx & Heq).
  apply value_eqb_eq in Heq. simpl. split.
  - congruence.
  - intros Hnone. unfold get_default. now rewrite Hnone.
Qed.

(** X16.  Only the existence of the file is checked when a job is
    requested: for a file whose record carries the id of account A, a
    requester B with another id is refused its information with 403, yet a
    detection or enhancement request by B on that file stores a pending job
    record owned by B and calls the enqueue service. *)
Theorem job_on_foreign_file (file_id : string) (file_doc B : dict)
    (a b : string) (s : state) :
  find_one (files (db s)) "file_id" (VStr file_id) = Some file_doc ->
  lookup file_doc "user_id" = Some (VStr a) ->
  lookup B "_id" = Some (VOid b) ->
  a <> b ->
  get_file_info file_id B s = (Raise (HTTPException 403 "Access denied"), s)
  /\ (forall model,
        exists r s' record,
          detect_threats {| dr_file_id := file_id; dr_model := model |} B s
            = (r, s')
          /\ results (db s') = results (db s) ++ [record]
          /\ length (enqueued s') = S (length (enqueued s))
          /\ lookup record "file_id" = Some (VStr file_id)
          /\ lookup record "user_id" = Some (VStr b)
          /\ lookup record "status" = Some (VStr "pending"))
  /\ (forall method,
        exists r s' record,
          enhance_image {| er_file_id := file_id; er_method := method |} B s
            = (r, s')
          /\ results (db s') = results (db s) ++ [record]
          /\ length (enqueued s') = S (length (enqueued s))
          /\ lookup record "file_id" = Some (VStr file_id)
          /\ lookup record "user_id" = Some (VStr b)
          /\ lookup record "status" = Some (VStr "pending")).
Proof.
  intros Hfound Howner Hb Hab.
  pose proof (found_is_true _ _ _ _ Hfound) as Hfalsy. split; [|split].
  - unfold get_file_info. run_handler. rewrite Hfound, Hfalsy, Hb. simpl.
    unfold get, get_default. rewrite Howner. simpl.
    destruct (String.eqb_spec a b); [contradiction|reflexivity].
  - intros model. unfold detect_threats, insert_one, call_enqueue.
    run_handler. rewrite Hfound, Hfalsy. simpl.
    destruct (uuid4 (world s)) as [job_id w1]. simpl. rewrite Hb. simpl.
    destruct (new_oid w1) as [oid w2]. simpl.
    destruct (enqueue_detection _ _ _ _) as [[x|] w3]; simpl;
      do 3 eexists; (split; [reflexivity|]); simpl;
      rewrite length_app, Nat.add_comm; repeat split; reflexivity.
  - intros method. unfold enhance_image, insert_one, call_enqueue.
    run_handler. rewrite Hfound, Hfalsy. simpl.
    destruct (uuid4 (world s)) as [job_id w1]. simpl. rewrite Hb. simpl.
    destruct (new_oid w1) as [oid w2]. simpl.
    destruct (enqueue_enhancement _ _ _ _) as [[x|] w3]; simpl;
      do 3 eexists; (split; [reflexivity|]); simpl;
      rewrite length_app, Nat.add_comm; repeat split; reflexivity.
Qed.

End AcrossRouters.

(** ** Further properties of the streaming endpoint *)

Section MoreStreamProperties.

Context {E : Env}.

Lemma on_text_cases (data : string) (w w' : W) (sent : list value)
    (c : connection) :
  on_text data w = (sent, c, w') ->
  (c = Open
   /\ (exists message, json_loads data = Some (VDict message))
   /\ exists d, sent = [VDict d] /\ lookup d "frame_id" <> None)
  \/ (c = Closed /\ sent = [] /\ w' = w
      /\ forall message, json_loads data <> Some (VDict message)).
Proof.
  unfold on_text.
  destruct (json_loads data) as [v|];
    [|intros [= <- <- <-]; right; repeat split; discriminate].
  destruct v; try (intros [= <- <- <-]; right; repeat split; discriminate).
  destruct (negb _).
  - intros [= <- <- <-]. left. split; [reflexivity|]. split; [eauto|].
    eexists. split; [reflexivity|]. simpl. discriminate.
  - destruct (process_frame_stream _ w) as [[e|result] w1];
      intros [= <- <- <-]; left; (split; [reflexivity|]); (split; [eauto|]);
      eexists; (split; [reflexivity|]); simpl; discriminate.
Qed.

(** X17.  The connection is still open after a sequence of events exactly
    when every event is a text that decodes to a JSON object: a disconnect,
    a text that is not JSON and a JSON value that is not an object each end
    the loop. *)
Theorem stream_open_iff_all_objects (inbound : list event) (w : W) :
  (exists sent w', websocket_stream inbound w = (sent, Open, w'))
  <-> all_objects inbound.
Proof.
  unfold all_objects. split.
  - revert w. induction inbound as [|ev rest IH]; intros w (sent & w' & H);
      [constructor|].
    simpl in H. destruct ev as [data|]; [|discriminate].
    destruct (on_text data w) as [[sent1 c] w1] eqn:Hstep.
    apply on_text_cases in Hstep
      as [(-> & (message & Hjson) & _)|(-> & _)]; [|discriminate].
    destruct (websocket_stream rest w1) as [[sent2 c2] w2] eqn:Hrest.
    injection H as _ -> _. constructor; eauto.
  - intros H. revert w.
    induction H as [|ev rest (data & message & -> & Hjson) _ IH]; intros w.
    + exists [], w. reflexivity.
    + destruct (on_text_object data message w Hjson)
        as (reply & w1 & Hstep & _).
      destruct (IH w1) as (sent & w' & Hrun).
      exists (reply :: sent), w'. simpl. now rewrite Hstep, Hrun.
Qed.

(** X18.  Whatever arrives, the endpoint sends at most one message per
    text received, every message it sends is an object with a frame_id, and
    as long as the connection is open it has sent exactly one message per
    event. *)
Theorem stream_at_most_one_reply (inbound : list event) (w : W) :
  let '(sent, c, _) := websocket_stream inbound w in
  (length sent <= texts_in inbound)%nat
  /\ Forall (fun reply => exists d,
               reply = VDict d /\ lookup d "frame_id" <> None) sent
  /\ (c = Open -> length sent = length inbound).
Proof.
  revert w. unfold texts_in.
  induction inbound as [|ev rest IH]; intros w; simpl.
  - repeat split; auto.
  - destruct ev as [data|]; simpl;
      [|repeat split; auto with arith; discriminate].
    destruct (on_text data w) as [[sent1 c] w1] eqn:Hstep.
    apply on_text_cases in Hstep
      as [(-> & _ & d & -> & Hd)|(-> & -> & _)].
    + specialize (IH w1).
      destruct (websocket_stream rest w1) as [[sent2 c2] w2].
      destruct IH as (Hlen & Hall & Hopen). simpl. repeat split.
      * lia.
      * constructor; eauto.
      * intros Hc. now rewrite Hopen.
    + simpl. repeat split; auto with arith. discriminate.
Qed.

(** X19.  On an open connection a disconnect, and a text that is valid
    JSON but not an object, end the loop without a reply: the first as
    Disconnected, the second closed by the handler; the events after them
    are not handled. *)
Theorem stream_stops_without_reply (before after : list event) (w w' : W)
    (sent : list value) :
  websocket_stream before w = (sent, Open, w') ->
  websocket_stream (before ++ Disconnect :: after) w
    = (sent, Disconnected, w')
  /\ forall data v,
       json_loads data = Some v ->
       (forall message, v <> VDict message) ->
       websocket_stream (before ++ Text data :: after) w = (sent, Closed, w').
Proof.
  intros Hbefore. rewrite !stream_app, Hbefore. simpl. split.
  - now rewrite app_nil_r.
  - intros data v Hjson Hv. rewrite stream_app, Hbefore. simpl.
    unfold on_text. rewrite Hjson.
    destruct v; try now rewrite app_nil_r.
    now destruct (Hv d).
Qed.

End MoreStreamProperties.

(** ** Further concrete runs in the demo environment *)

Lemma create_job_returns_witness :
  let s := Demo.store Demo.env 0%nat [] in
  let request := {| dr_file_id := "file-1"; dr_model := "yolov8" |} in
  let resp := {| r_job_id := "job0"; r_status := "pending";
                 r_message := "Detection job queued" |} in
  let run := detect_threats (E := Demo.env) request Demo.alice s in
  fst run = Return resp
  /\ job_created (E := Demo.env) "detection" "file-1" "yolov8" Demo.alice s
       (snd run) resp.
Proof.
  intros s request resp run. split; [reflexivity|].
  apply (proj1 (create_job_returns (E := Demo.env) Demo.alice s (snd run)
                  resp) request).
  reflexivity.
Defined.

Lemma create_then_status_witness :
  let s := Demo.store Demo.env 0%nat [] in
  let request := {| er_file_id := "file-1"; er_method := "unet" |} in
  let resp := {| r_job_id := "job0"; r_status := "pending";
                 r_message := "Enhancement job queued" |} in
  let run := enhance_image (E := Demo.env) request Demo.alice s in
  fst run = Return resp
  /\ get_enhancement_status (E := Demo.env) "job0" Demo.alice (snd run)
     = (Return {| js_job_id := VStr "job0"; js_status := VStr "pending";
                  js_result := VNone; js_error := VNone |}, snd run).
Proof.
  intros s request resp run. split; [reflexivity|].
  apply (proj2 (create_then_status (E := Demo.env) Demo.alice s (snd run)
                  resp eq_refl) request).
  reflexivity.
Defined.

Lemma create_keeps_existing_jobs_witness :
  let s := Demo.store Demo.env 0%nat
             [Demo.job "j1" "completed" [("detections", VList [])]] in
  let request := {| dr_file_id := "file-1"; dr_model := "clip" |} in
  let run := detect_threats (E := Demo.env) request Demo.bob s in
  fst run = Raise (Exception "queue unavailable")
  /\ length (results (db (snd run))) = 2%nat
  /\ fst (get_detection_status (E := Demo.env) "j1" Demo.alice (snd run))
     = fst (get_detection_status (E := Demo.env) "j1" Demo.alice s).
Proof.
  intros s request run. split; [reflexivity|]. split; [reflexivity|].
  destruct (create_keeps_existing_jobs (E := Demo.env) Demo.bob s (snd run)
              (fst run)) as [_ Hkept].
  - left. exists request. reflexivity.
  - apply (Hkept "j1" Demo.alice
             (Demo.job "j1" "completed" [("detections", VList [])])).
    reflexivity.
Defined.

Lemma get_endpoints_read_only_witness :
  let s := Demo.store Demo.env 0%nat [Demo.job "j1" "pending" []] in
  snd (get_detection_status (E := Demo.env) "j1" Demo.alice s) = s
  /\ snd (me (E := Demo.env) "secretbob" s) = s.
Proof.
  intros s.
  destruct (get_endpoints_read_only (E := Demo.env) s
              (snd (get_detection_status (E := Demo.env) "j1" Demo.alice s)))
    as (Hstatus & _).
  destruct (get_endpoints_read_only (E := Demo.env) s
              (snd (me (E := Demo.env) "secretbob" s)))
    as (_ & _ & Hme & _).
  split.
  - apply (Hstatus "j1" Demo.alice
             (fst (get_detection_status (E := Demo.env) "j1" Demo.alice s))).
    left. reflexivity.
  - apply (Hme "secretbob" (fst (me (E := Demo.env) "secretbob" s))).
    reflexivity.
Defined.

Lemma issued_token_validates_witness :
  let s := Demo.store Demo.env 0%nat [] in
  exists token,
    create_access_token (E := Demo.env) [("sub", VStr "alice")] (Some 1800) s
      = (Return token, s)
    /\ forall s2,
         users (db s2) = users (db s) ->
         utcnow (world s2) < utcnow (world s) + 1800 ->
         get_current_user (E := Demo.env) token s2 = (Return Demo.alice, s2).
Proof.
  intros s.
  apply (issued_token_validates (E := Demo.env) demo_jose "alice" Demo.alice
           1800 s).
  - reflexivity.
  - lia.
Defined.

Lemma login_existing_account_witness :
  let carol := [("_id", VOid "ca401"); ("username", VStr "carol");
                ("hashed_password", VStr "$2b$tide pool");
                ("is_active", VBool false)] in
  let s : @state Demo.env :=
    {| db := {| users := [carol]; files := []; results := [] |};
       world := (0%nat : @W Demo.env); enqueued := [] |} in
  login (E := Demo.env) {| username := "carol"; password := "tide pool" |} s
    = (Return {| access_token := "secretcarol"; token_type := "bearer" |}, s)
  /\ login (E := Demo.env) {| username := "carol"; password := "tidepool" |} s
    = (Raise (HTTPException 401 "Incorrect username or password"), s).
Proof.
  intros carol s. split.
  - apply (proj2 (login_existing_account (E := Demo.env)
                    {| username := "carol"; password := "tide pool" |}
                    carol s eq_refl)
             (VStr "$2b$tide pool") (VStr "carol")); reflexivity.
  - apply (proj2 (login_existing_account (E := Demo.env)
                    {| username := "carol"; password := "tidepool" |}
                    carol s eq_refl)
             (VStr "$2b$tide pool") (VStr "carol")); reflexivity.
Defined.

Lemma login_changes_only_on_bootstrap_witness :
  let s := Demo.store Demo.env 0%nat [] in
  let admin := {| username := "admin"; password := "admin123" |} in
  let s' := snd (login (E := Demo.env) admin s) in
  length (users (db s')) = 3%nat
  /\ files (db s') = files (db s)
  /\ results (db s') = results (db s)
  /\ enqueued s' = enqueued s
  /\ exists added,
       users (db s') = users (db s) ++ added
       /\ (length added <= 1)%nat
       /\ (added <> [] ->
           username admin = "admin"
           /\ password admin = "admin123"
           /\ find_one (users (db s)) "username" (VStr "admin") = None).
Proof.
  intros s admin s'. split; [reflexivity|].
  apply (login_changes_only_on_bootstrap (E := Demo.env) admin s s'
           (fst (login (E := Demo.env) admin s))).
  reflexivity.
Defined.

Lemma file_info_owner_only_witness :
  let s := Demo.store Demo.env 0%nat [] in
  get_file_info (E := Demo.env) "file-9" Demo.bob s
    = (Raise (HTTPException 404 "File not found"), s)
  /\ get_file_info (E := Demo.env) "file-1" Demo.bob s
    = (Raise (HTTPException 403 "Access denied"), s).
Proof.
  intros s.
  destruct (file_info_owner_only (E := Demo.env) "file-9" s Demo.bob)
    as (H404 & _).
  destruct (file_info_owner_only (E := Demo.env) "file-1" s Demo.bob)
    as (_ & H403 & _).
  split; [exact (H404 eq_refl)|].
  apply (H403 Demo.picture "a11ce" "b0b"); try reflexivity.
  discriminate.
Defined.

Lemma upload_returns_witness :
  let s := Demo.store Demo.env 0%nat [] in
  let file := DemoFiles.reef [Byte.x89; Byte.x50; Byte.x4e] in
  let resp := {| up_file_id := "job0"; up_filename := "reef.png";
                 up_file_size := 3; up_content_type := VStr "image/png" |} in
  let run := upload_file (F := DemoFiles.storage) file Demo.alice s in
  fst run = Return resp
  /\ file_stored (F := DemoFiles.storage) file Demo.alice s (snd run) resp.
Proof.
  intros s file resp run. split; [reflexivity|].
  apply (upload_returns (F := DemoFiles.storage) file Demo.alice s (snd run)
           resp).
  reflexivity.
Defined.

Lemma upload_then_file_info_witness :
  let s := Demo.store Demo.env 0%nat [] in
  let file := DemoFiles.reef [Byte.x89; Byte.x50; Byte.x4e] in
  let run := upload_file (F := DemoFiles.storage) file Demo.alice s in
  get_file_info (E := Demo.env) "job0" Demo.alice (snd run) =
    (Return [("file_id", VStr "job0"); ("filename", VStr "reef.png");
             ("file_path", VStr "uploads/job0.png");
             ("file_size", VInt 3); ("content_type", VStr "image/png")],
     snd run).
Proof.
  intros s file run.
  apply (upload_then_file_info (F := DemoFiles.storage) file Demo.alice s
           (snd run)
           {| up_file_id := "job0"; up_filename := "reef.png";
              up_file_size := 3; up_content_type := VStr "image/png" |});
    reflexivity.
Defined.

Lemma upload_rejections_witness :
  let s := Demo.store Demo.env 0%nat [] in
  let big := DemoFiles.reef
               [Byte.x89; Byte.x50; Byte.x4e; Byte.x47; Byte.x0d] in
  let run := upload_file (F := DemoFiles.storage) big Demo.alice s in
  fst run = Raise (HTTPException 500 "Upload failed: 400: File too large")
  /\ db (snd run) = db s
  /\ enqueued (snd run) = enqueued s
  /\ (fst run
      = Raise (HTTPException 500
                 ("Upload failed: " ++
                  str_exn (Storage := DemoFiles.storage)
                    (HTTPException 400 "File too large"))%string)
      \/ exists path w e w',
           path_exists (Storage := DemoFiles.storage) path w = true
           /\ os_remove (Storage := DemoFiles.storage) path w = (Some e, w')
           /\ fst run = Raise e).
Proof.
  intros s big run. split; [reflexivity|].
  apply (proj2 (upload_rejections (F := DemoFiles.storage) big Demo.alice s)
           eq_refl eq_refl (fst run) (snd run)).
  reflexivity.
Defined.

Lemma upload_changes_only_files_witness :
  let s := Demo.store Demo.env 0%nat [Demo.job "j1" "pending" []] in
  let file := DemoFiles.reef [Byte.x89] in
  let run := upload_file (F := DemoFiles.storage) file Demo.bob s in
  length (files (db (snd run))) = 2%nat
  /\ users (db (snd run)) = users (db s)
  /\ results (db (snd run)) = results (db s)
  /\ enqueued (snd run) = enqueued s
  /\ exists added,
       files (db (snd run)) = files (db s) ++ added
       /\ (length added <= 1)%nat.
Proof.
  intros s file run. split; [reflexivity|].
  apply (upload_changes_only_files (F := DemoFiles.storage) file Demo.bob s
           (snd run) (fst run)).
  reflexivity.
Defined.

Lemma me_returns_subject_witness :
  let s := Demo.store Demo.env 0%nat [] in
  let answer := [("id", VStr "b0b"); ("username", VStr "bob");
                 ("email", VNone); ("is_active", VBool true)] in
  me (E := Demo.env) "secretbob" s = (Return answer, s)
  /\ exists payload user,
       jwt_decode (Env := Demo.env) "secretbob" "secret" ["HS256"]
         (utcnow (Env := Demo.env) (world s)) = Some payload
       /\ get payload "sub" <> VNone
       /\ find_one (users (db s)) "username" (get payload "sub") = Some user
       /\ lookup answer "username" = Some (get payload "sub")
       /\ (lookup user "is_active" = None ->
           lookup answer "is_active" = Some (VBool true)).
Proof.
  intros s answer. split; [reflexivity|].
  apply (me_returns_subject (E := Demo.env) "secretbob" s s answer).
  reflexivity.
Defined.

Lemma job_on_foreign_file_witness :
  let s := Demo.store Demo.env 0%nat [] in
  get_file_info (E := Demo.env) "file-1" Demo.bob s
    = (Raise (HTTPException 403 "Access denied"), s)
  /\ exists r s' record,
       detect_threats (E := Demo.env)
         {| dr_file_id := "file-1"; dr_model := "yolov8" |} Demo.bob s
         = (r, s')
       /\ results (db s') = results (db s) ++ [record]
       /\ length (enqueued s') = S (length (enqueued s))
       /\ lookup record "file_id" = Some (VStr "file-1")
       /\ lookup record "user_id" = Some (VStr "b0b")
       /\ lookup record "status" = Some (VStr "pending").
Proof.
  intros s.
  destruct (job_on_foreign_file (E := Demo.env) "file-1" Demo.picture
              Demo.bob "a11ce" "b0b" s) as (Hinfo & Hdetect & _);
    try reflexivity; [discriminate|].
  split; [exact Hinfo|apply Hdetect].
Defined.

Lemma stream_open_iff_all_objects_witness :
  all_objects (E := Demo.env) [Text "no frame f1"; Text "frame"]
  /\ ~ exists sent w',
         websocket_stream (E := Demo.env) [Text "frame f0"; Text "list"] 0%nat
           = (sent, Open, w').
Proof.
  split.
  - apply (proj1 (stream_open_iff_all_objects (E := Demo.env)
                    [Text "no frame f1"; Text "frame"] 0%nat)).
    do 2 eexists. reflexivity.
  - intros H.
    apply (proj1 (stream_open_iff_all_objects (E := Demo.env)
                    [Text "frame f0"; Text "list"] 0%nat)) in H.
    inversion H as [|ev rest _ Hrest]; subst.
    inversion Hrest as [|ev' rest' (data & message & Hev & Hjson) _]; subst.
    injection Hev as <-. discriminate Hjson.
Defined.

Lemma stream_stops_without_reply_witness :
  let before := [Text "no frame f1"] in
  let reply := VDict [("error", VStr "No frame data provided");
                      ("frame_id", VStr "f1")] in
  websocket_stream (E := Demo.env)
    (before ++ Disconnect :: [Text "frame f0"]) 0%nat
    = ([reply], Disconnected, 0%nat)
  /\ websocket_stream (E := Demo.env)
       (before ++ Text "list" :: [Text "frame f0"]) 0%nat
     = ([reply], Closed, 0%nat).
Proof.
  intros before reply.
  destruct (stream_stops_without_reply (E := Demo.env) before
              [Text "frame f0"] 0%nat 0%nat [reply] eq_refl) as [Hd Hc].
  split; [exact Hd|].
  apply (Hc "list" (VList [VInt 1])); [reflexivity|discriminate].
Defined.
